(** * rock5-fan-control: a shallow embedding of [rock5-fan-control.py]

    The script regulates a fan from a thermal sensor and counts tachometer
    pulses on a background thread.  Python floats are IEEE binary64 and are
    embedded as Rocq's primitive floats; Python ints are [Z]; exceptions are
    an explicit [result] type; file-system and console effects are recorded as
    an event trace. *)

From Stdlib Require Import ZArith Bool List String Ascii Lia Floats.
From Stdlib Require Import DecimalString.
Import ListNotations.

Set Warnings "-inexact-float".

Local Open Scope Z_scope.

(* ------------------------------------------------------------------ *)
(** ** Python values: exceptions, ints, floats *)

Module Py.

(** The exception classes the script can meet. *)
Inductive exn : Set :=
| OSError
| ValueError
| OverflowError
| ZeroDivisionError.

(** Outcome of evaluating a Python expression. *)
Inductive result (A : Type) : Type :=
| Ok (a : A)
| Raise (e : exn).

Arguments Ok {A} a.
Arguments Raise {A} e.

Definition bind {A B : Type} (r : result A) (k : A -> result B) : result B :=
  match r with
  | Ok a => k a
  | Raise e => Raise e
  end.

Definition is_ok {A : Type} (r : result A) : bool :=
  match r with
  | Ok _ => true
  | Raise _ => false
  end.

(** Conversion of an int to a float, as done by [int / float] and
    [int * float]: round to nearest even, [OverflowError] when the magnitude
    does not fit a double, that is when the rounded value is not finite. *)
Definition float_of_int (z : Z) : result float :=
  let f := SF2Prim (binary_normalize prec emax z 0 false) in
  if PrimFloat.is_nan f || PrimFloat.is_infinity f
  then Raise OverflowError
  else Ok f.

(** [a / b] on floats: [ZeroDivisionError] on a zero divisor (of either
    sign), IEEE division otherwise. *)
Definition truediv (a b : float) : result float :=
  if PrimFloat.eqb b 0%float then Raise ZeroDivisionError
  else Ok (PrimFloat.div a b).

(** [int(f)]: truncation toward zero; [ValueError] on NaN, [OverflowError]
    on an infinity. *)
Definition int_of_float (f : float) : result Z :=
  match Prim2SF f with
  | S754_nan => Raise ValueError
  | S754_infinity _ => Raise OverflowError
  | S754_zero _ => Ok 0
  | S754_finite s m e =>
      let mag := Z.shiftl (Z.pos m) e in
      Ok (if s then - mag else mag)
  end.

(** [str(z)] for an int. *)
Definition str (z : Z) : string :=
  NilZero.string_of_int (Z.to_int z).

(** [needle in hay] on strings. *)
Fixpoint contains (needle hay : string) : bool :=
  if String.prefix needle hay then true
  else match hay with
       | EmptyString => false
       | String _ rest => contains needle rest
       end.

(** Last character of a string, if any. *)
Fixpoint last_char (s : string) : option ascii :=
  match s with
  | EmptyString => None
  | String c EmptyString => Some c
  | String _ rest => last_char rest
  end.

(** [os.path.join(a, b)] on POSIX paths. *)
Definition path_join (a b : string) : string :=
  match b with
  | String "/"%char _ => b
  | _ =>
      match last_char a with
      | None => b
      | Some "/"%char => (a ++ b)%string
      | Some _ => (a ++ "/" ++ b)%string
      end
  end.

End Py.

Import Py.

Notation "x <- c1 ;; c2" := (Py.bind c1 (fun x => c2))
  (at level 61, c1 at next level, right associativity).

(* ------------------------------------------------------------------ *)
(** ** Configuration *)

Definition THERMAL_ZONE : string := "/sys/class/thermal/thermal_zone0".
Definition COOLING_DEV_FALLBACK : string :=
  "/sys/class/thermal/cooling_device5/cur_state".
Definition PWM_NODE_ADDR : string := "febf0020".
Definition RPM_GPIO : Z := 139.
Definition POLL_INTERVAL : float := 3%float.

(* ------------------------------------------------------------------ *)
(** ** Thermal policy *)

(** [get_target_speed(temp)]. *)
Definition get_target_speed (temp : float) : Z :=
  if PrimFloat.leb temp 40%float then 1
  else if PrimFloat.leb temp 50%float then 2
  else if PrimFloat.leb temp 60%float then 3
  else 4.

(* ------------------------------------------------------------------ *)
(** ** Effects: console lines, sysfs writes, sleeps *)

(** The files the script opens for writing.  [path_of] gives the path. *)
Inductive file : Type :=
| F_policy
| F_unbind
| F_pwm_export (chip : string)
| F_pwm_enable (chip : string)
| F_pwm_period (chip : string)
| F_pwm_polarity (chip : string)
| F_duty_cycle (chip : string)
| F_cooling_fallback.

Definition path_of (f : file) : string :=
  match f with
  | F_policy => path_join THERMAL_ZONE "policy"
  | F_unbind => path_join "/sys/bus/platform/drivers/pwm-fan" "unbind"
  | F_pwm_export chip => path_join chip "export"
  | F_pwm_enable chip => path_join (path_join chip "pwm0") "enable"
  | F_pwm_period chip => path_join (path_join chip "pwm0") "period"
  | F_pwm_polarity chip => path_join (path_join chip "pwm0") "polarity"
  | F_duty_cycle chip => path_join chip "pwm0/duty_cycle"
  | F_cooling_fallback => COOLING_DEV_FALLBACK
  end.

(** The lines the script prints, one constructor per [print] call. *)
Inductive line : Type :=
| L_unbinding (link : string)
| L_unbind_failed (e : exn)
| L_found_chip (chip : string)
| L_chip_not_found
| L_period_warning (e : exn)
| L_polarity_note
| L_enable_error (e : exn)
| L_duty_error (e : exn)
| L_cooling_error (e : exn)
| L_selftest_start
| L_selftest_level (level : Z)
| L_selftest_rpm (level : Z) (rpm : Z)
| L_selftest_done
| L_temp_error (e : exn)
| L_status (temp : float) (target : Z) (rpm : Z).

Inductive event : Type :=
| Print (l : line)
| Write (f : file) (content : string)
| Sleep (secs : float).

(** A command emits events and then returns or raises. *)
Definition M (A : Type) : Type := (list event * result A)%type.

Definition ret {A : Type} (a : A) : M A := ([], Ok a).

Definition bindM {A B : Type} (m : M A) (k : A -> M B) : M B :=
  match m with
  | (ev, Ok a) => let (ev', r) := k a in (ev ++ ev', r)
  | (ev, Raise e) => (ev, Raise e)
  end.

Notation "x <~ c1 ;; c2" := (bindM c1 (fun x => c2))
  (at level 61, c1 at next level, right associativity).
Notation "c1 >> c2" := (bindM c1 (fun _ => c2))
  (at level 61, right associativity).

Definition lift {A : Type} (r : result A) : M A := ([], r).

Definition print (l : line) : M unit := ([Print l], Ok tt).

Definition sleep (secs : float) : M unit := ([Sleep secs], Ok tt).

(** [with open(f, "w") as h: h.write(content)]; the outcome is the
    environment's. *)
Definition write_file (f : file) (content : string) (io : result unit)
  : M unit := ([Write f content], io).

(** [try: body except Exception as e: handler(e)] (also the bare
    [except:]). *)
Definition try_except {A : Type} (body : M A) (handler : exn -> M A) : M A :=
  match body with
  | (ev, Ok a) => (ev, Ok a)
  | (ev, Raise e) => let (ev', r) := handler e in (ev ++ ev', r)
  end.

(** [try: body except OSError: pass]. *)
Definition try_except_OSError (body : M unit) : M unit :=
  match body with
  | (ev, Raise OSError) => (ev, Ok tt)
  | other => other
  end.

(* ------------------------------------------------------------------ *)
(** ** RPMReader *)

Record RPMReader : Type := mkRPMReader {
  running : bool;
  rpm_attr : Z;
  pulse_count : Z;
  last_time : float
}.

(** The attribute assignments of [RPMReader.__init__]; [now] is what
    [time.time()] returns. *)
Definition RPMReader_init (now : float) : RPMReader :=
  {| running := true; rpm_attr := 0; pulse_count := 0; last_time := now |}.

(** The critical section of [_monitor_loop]: [self.pulse_count += 1]. *)
Definition count_pulse (r : RPMReader) : RPMReader :=
  {| running := running r; rpm_attr := rpm_attr r;
     pulse_count := pulse_count r + 1; last_time := last_time r |}.

(** The lines of [get_rpm] after the critical section. *)
Definition rpm_value (count : Z) (dt : float) : result Z :=
  if PrimFloat.eqb dt 0%float then Ok 0
  else
    a <- (cf <- float_of_int count ;; truediv cf 2%float) ;;
    b <- truediv 60%float dt ;;
    int_of_float (PrimFloat.mul a b).

(** [get_rpm], run without interruption; [now] is what [time.time()]
    returns inside it. *)
Definition get_rpm (now : float) (r : RPMReader) : RPMReader * result Z :=
  let current_time := now in
  let dt := PrimFloat.sub current_time (last_time r) in
  let count := pulse_count r in
  ({| running := running r; rpm_attr := rpm_attr r;
      pulse_count := 0; last_time := current_time |},
   rpm_value count dt).

(* ------------------------------------------------------------------ *)
(** ** FanController *)

Record FanController : Type := mkFanController {
  pwm_path : option string;
  period : Z
}.

(** Truthiness of [self.pwm_path]: [None] and the empty string are false. *)
Definition pwm_chip (self : FanController) : option string :=
  match pwm_path self with
  | Some EmptyString => None
  | other => other
  end.

(** What [release_kernel_driver] finds for one directory entry: its name,
    whether it is a symlink, and how the write to [unbind] would end. *)
Record driver_entry : Type := mkDriverEntry {
  link_name : string;
  is_link : bool;
  unbind_io : result unit
}.

Fixpoint unbind_links (entries : list driver_entry) : M unit :=
  match entries with
  | [] => ret tt
  | d :: rest =>
      (if is_link d
       then print (L_unbinding (link_name d)) >>
            write_file F_unbind (link_name d) (unbind_io d)
       else ret tt) >>
      unbind_links rest
  end.

(** [release_kernel_driver]; [driver] is [None] when the driver directory
    does not exist, else the outcome of [os.listdir]. *)
Definition release_kernel_driver
  (driver : option (result (list driver_entry))) : M unit :=
  match driver with
  | None => ret tt
  | Some listing =>
      try_except (entries <~ lift listing ;; unbind_links entries)
                 (fun e => print (L_unbind_failed e))
  end.

(** What [find_pwm_chip] sees of one chip: its path, and the outcome of
    looking at [device/of_node]: [Ok None] when the link does not exist,
    [Ok (Some p)] with its real path otherwise. *)
Record chip_obs : Type := mkChipObs {
  chip_path : string;
  of_node : result (option string)
}.

Fixpoint find_pwm_chip (chips : list chip_obs) : M (option string) :=
  match chips with
  | [] => print L_chip_not_found >> ret None
  | c :: rest =>
      match of_node c with
      | Ok (Some real_path) =>
          if contains PWM_NODE_ADDR real_path
          then print (L_found_chip (chip_path c)) >> ret (Some (chip_path c))
          else find_pwm_chip rest
      | _ => find_pwm_chip rest
      end
  end.

(** How the file operations of [init_pwm] end. *)
Record init_io : Type := mkInitIo {
  pwm0_exists : bool;
  export_io : result unit;
  disable_io : result unit;
  period_io : result unit;
  polarity_io : result unit;
  enable_io : result unit
}.

Definition init_pwm (self : FanController) (io : init_io) : M unit :=
  match pwm_chip self with
  | None => ret tt
  | Some chip =>
      (if pwm0_exists io then ret tt
       else try_except_OSError
              (write_file (F_pwm_export chip) "0" (export_io io) >>
               sleep 0.5%float)) >>
      try_except (write_file (F_pwm_enable chip) "0" (disable_io io))
                 (fun _ => ret tt) >>
      try_except (write_file (F_pwm_period chip) (str (period self))
                             (period_io io))
                 (fun e => print (L_period_warning e)) >>
      try_except (write_file (F_pwm_polarity chip) "normal" (polarity_io io))
                 (fun _ => print L_polarity_note) >>
      try_except (write_file (F_pwm_enable chip) "1" (enable_io io))
                 (fun e => print (L_enable_error e))
  end.

(** [FanController.__init__]. *)
Definition FanController_init
  (driver : option (result (list driver_entry)))
  (chips : list chip_obs) (io : init_io) : M FanController :=
  release_kernel_driver driver >>
  found <~ find_pwm_chip chips ;;
  let self := {| pwm_path := found; period := 40000 |} in
  init_pwm self io >>
  ret self.

(** [int(self.period * (speed_level / 4.0))], then the guard for level 0. *)
Definition duty_cycle_of (period speed_level : Z) : result Z :=
  q <- (lf <- float_of_int speed_level ;; truediv lf 4%float) ;;
  pf <- float_of_int period ;;
  d <- int_of_float (PrimFloat.mul pf q) ;;
  Ok (if speed_level =? 0 then 0 else d).

(** [set_speed]; [io] is how the write to the chosen file ends. *)
Definition set_speed (self : FanController) (speed_level : Z)
  (io : result unit) : M unit :=
  match pwm_chip self with
  | Some chip =>
      duty_cycle <~ lift (duty_cycle_of (period self) speed_level) ;;
      try_except (write_file (F_duty_cycle chip) (str duty_cycle) io)
                 (fun e => print (L_duty_error e))
  | None =>
      try_except (write_file F_cooling_fallback (str speed_level) io)
                 (fun e => print (L_cooling_error e))
  end.

(* ------------------------------------------------------------------ *)
(** ** Temperature acquisition and governor policy *)

(** [read_temp]; [raw] is the outcome of
    [int(f.read().strip())] on the sensor file, an exception standing for a
    failure of [open], [read] or [int]. *)
Definition read_temp (raw : result Z) : M float :=
  try_except
    (z <~ lift raw ;;
     zf <~ lift (float_of_int z) ;;
     lift (truediv zf 1000%float))
    (fun e => print (L_temp_error e) >> ret 75.0%float).

(** What [set_policy_user_space] meets: whether the policy file exists, the
    outcome of reading and stripping it, the outcome of writing it. *)
Record policy_obs : Type := mkPolicyObs {
  pol_exists : bool;
  pol_read : result string;
  pol_write : result unit
}.

Definition set_policy_user_space (p : policy_obs) : M unit :=
  try_except
    (if pol_exists p
     then current <~ lift (pol_read p) ;;
          if String.eqb current "user_space" then ret tt
          else write_file F_policy "user_space" (pol_write p)
     else ret tt)
    (fun _ => ret tt).

(* ------------------------------------------------------------------ *)
(** ** The foreground thread: self-test and steady loop

    [run_self_test] and [main] only call [get_rpm()] on the reader they are
    given, so they are written over any reader state [R] with such a
    method. *)

(** [range(n)]. *)
Definition range (n : nat) : list Z := map Z.of_nat (seq 0 n).

(** What one steady tick meets. *)
Record tick_env : Type := mkTickEnv {
  te_policy : policy_obs;
  te_temp : result Z;
  te_write : result unit
}.

Section Foreground.

Variable R : Type.
Variable get_rpm_of : R -> R * result Z.

(** The inner loop of [run_self_test]: [n] rounds of
    [time.sleep(2)], then the RPM line when a reader was given. *)
Fixpoint sample_dwell (n : nat) (level : Z) (rpm_reader : option R)
  : M (option R) :=
  match n with
  | O => ret rpm_reader
  | S n' =>
      sleep 2%float >>
      rd <~ match rpm_reader with
            | Some r =>
                let (r', res) := get_rpm_of r in
                rpm <~ lift res ;;
                print (L_selftest_rpm level rpm) >> ret (Some r')
            | None => ret None
            end ;;
      sample_dwell n' level rd
  end.

(** The outer loop of [run_self_test] over the given levels; [ios level] is
    how the write of that level ends. *)
Fixpoint self_test_levels (self : FanController) (levels : list Z)
  (ios : Z -> result unit) (rpm_reader : option R) : M (option R) :=
  match levels with
  | [] => ret rpm_reader
  | level :: rest =>
      print (L_selftest_level level) >>
      set_speed self level (ios level) >>
      rd <~ sample_dwell 5 level rpm_reader ;;
      self_test_levels self rest ios rd
  end.

Definition run_self_test (self : FanController) (rpm_reader : option R)
  (ios : Z -> result unit) : M (option R) :=
  print L_selftest_start >>
  rd <~ self_test_levels self (range 5) ios rpm_reader ;;
  print L_selftest_done >>
  ret rd.

(** The variables of [main] that live across ticks. *)
Record loop_state : Type := mkLoopState {
  rpm_reader_of : R;
  current_speed : Z;
  last_rpm : Z
}.

(** [main] at the entry of [while True]. *)
Definition loop_entry (rpm_reader : R) : loop_state :=
  {| rpm_reader_of := rpm_reader; current_speed := -1; last_rpm := -1 |}.

(** One iteration of [while True] in [main]. *)
Definition steady_tick (controller : FanController) (env : tick_env)
  (st : loop_state) : M loop_state :=
  set_policy_user_space (te_policy env) >>
  temp <~ read_temp (te_temp env) ;;
  let target_speed := get_target_speed temp in
  let (rd, res) := get_rpm_of (rpm_reader_of st) in
  rpm <~ lift res ;;
  st' <~ (if negb (target_speed =? current_speed st)
             || (Z.abs (rpm - last_rpm st) >? 100)
          then
            print (L_status temp target_speed rpm) >>
            cs <~ (if negb (target_speed =? current_speed st)
                   then set_speed controller target_speed (te_write env) >>
                        ret target_speed
                   else ret (current_speed st)) ;;
            ret {| rpm_reader_of := rd; current_speed := cs; last_rpm := rpm |}
          else
            ret {| rpm_reader_of := rd; current_speed := current_speed st;
                   last_rpm := last_rpm st |}) ;;
  sleep POLL_INTERVAL >>
  ret st'.

(** The first [length envs] iterations of [while True]. *)
Fixpoint steady_loop (controller : FanController) (envs : list tick_env)
  (st : loop_state) : M loop_state :=
  match envs with
  | [] => ret st
  | env :: rest =>
      st' <~ steady_tick controller env st ;;
      steady_loop controller rest st'
  end.

End Foreground.

Arguments rpm_reader_of {R} _.
Arguments current_speed {R} _.
Arguments last_rpm {R} _.
Arguments mkLoopState {R} _ _ _.
Arguments loop_entry {R} _.
Arguments steady_tick {R} _ _ _ _.
Arguments steady_loop {R} _ _ _ _.
Arguments run_self_test {R} _ _ _ _.
Arguments self_test_levels {R} _ _ _ _ _.
Arguments sample_dwell {R} _ _ _ _.

(** The reader of the script as the foreground thread meets it: before the
    [k]-th call of [get_rpm] the monitor thread has counted
    [fst (arrivals k)] more pulses, and the call reads the clock at
    [snd (arrivals k)]. *)
Definition clocked_get_rpm (arrivals : nat -> nat * float)
  (s : RPMReader * nat) : (RPMReader * nat) * result Z :=
  let (r, k) := s in
  let (n, now) := arrivals k in
  let (r', res) := get_rpm now (Nat.iter n count_pulse r) in
  ((r', S k), res).

(** ** Observations on traces *)

(** A write issued by [set_speed]: duty cycle or fallback level. *)
Definition is_actuation (e : event) : bool :=
  match e with
  | Write (F_duty_cycle _) _ => true
  | Write F_cooling_fallback _ => true
  | _ => false
  end.

Definition is_duty_write (e : event) : bool :=
  match e with
  | Write (F_duty_cycle _) _ => true
  | _ => false
  end.

(** The status line of the steady loop. *)
Definition is_status (e : event) : bool :=
  match e with
  | Print (L_status _ _ _) => true
  | _ => false
  end.

Definition actuations (evs : list event) : list event :=
  filter is_actuation evs.

(* ------------------------------------------------------------------ *)
(** ** Traces of the foreground thread *)

(** The line [set_speed] prints when its write fails. *)
Definition write_failure (l : exn -> line) (io : result unit) : list event :=
  match io with
  | Ok _ => []
  | Raise e => [Print (l e)]
  end.

(** The value [read_temp] returns on [raw]. *)
Definition temp_read (raw : result Z) : float :=
  match snd (read_temp raw) with
  | Ok t => t
  | Raise _ => 75.0%float
  end.

(** The write of [set_speed] at level [l]: the level itself on the fallback
    path, and on the PWM path the duty cycle, which for the period of the
    script is the exact quotient. *)
Definition actuation_write (c : FanController) (l : Z) : event :=
  match pwm_chip c with
  | Some chip => Write (F_duty_cycle chip) (str (period c * l / 4))
  | None => Write F_cooling_fallback (str l)
  end.

(** What [set_speed] prints after its write. *)
Definition failure_line (c : FanController) (io : result unit) : list event :=
  match pwm_chip c with
  | Some _ => write_failure L_duty_error io
  | None => write_failure L_cooling_error io
  end.

(** The events of the gated part of a tick. *)
Definition gated_events {R : Type} (controller : FanController)
  (env : tick_env) (st : loop_state R) (rpm : Z)
  : list event :=
  let temp := temp_read (te_temp env) in
  let target := get_target_speed temp in
  if negb (target =? current_speed st) || (Z.abs (rpm - last_rpm st) >? 100)
  then Print (L_status temp target rpm)
       :: (if negb (target =? current_speed st)
           then actuation_write controller target
                :: failure_line controller (te_write env)
           else [])
  else [].

(** The next [n] calls of [get_rpm()] on the reader return. *)
Fixpoint calls_ok {R : Type} (get_rpm_of : R -> R * result Z) (n : nat)
  (r : R) : bool :=
  match n with
  | O => true
  | S n' => let (r', res) := get_rpm_of r in
            is_ok res && calls_ok get_rpm_of n' r'
  end.

(** The target level of a tick. *)
Definition target_of (env : tick_env) : Z :=
  get_target_speed (temp_read (te_temp env)).

Definition statuses (evs : list event) : list event := filter is_status evs.

(** Not a write to a PWM duty-cycle file. *)
Definition not_duty (e : event) : Prop := is_duty_write e = false.

(** The values of [n] successive [get_rpm()] calls, up to the first that
    raises, and the reader afterwards. *)
Fixpoint draw {R : Type} (get_rpm_of : R -> R * result Z) (n : nat) (r : R)
  : list Z * R :=
  match n with
  | O => ([], r)
  | S n' =>
      let (r', res) := get_rpm_of r in
      match res with
      | Ok v => let (vs, r'') := draw get_rpm_of n' r' in (v :: vs, r'')
      | Raise _ => ([], r')
      end
  end.

(** A dwell: per sample a sleep of two seconds and the RPM line. *)
Definition dwell_trace (level : Z) (vals : list Z) : list event :=
  flat_map (fun v => [Sleep 2%float; Print (L_selftest_rpm level v)]) vals.

(** One level of the self-test: its line, its write, its dwell. *)
Definition level_block (c : FanController) (ios : Z -> result unit)
  (level : Z) (vals : list Z) : list event :=
  Print (L_selftest_level level)
    :: actuation_write c level :: failure_line c (ios level)
    ++ dwell_trace level vals.

(** Seconds slept in a trace. *)
Fixpoint slept (evs : list event) : float :=
  match evs with
  | [] => 0%float
  | Sleep s :: rest => PrimFloat.add s (slept rest)
  | _ :: rest => slept rest
  end.

(** The trace of the outer loop, the reader being drawn from five times
    per level. *)
Fixpoint levels_trace {R : Type} (get_rpm_of : R -> R * result Z)
  (controller : FanController) (ios : Z -> result unit) (levels : list Z)
  (r : R)
  : list event :=
  match levels with
  | [] => []
  | level :: rest =>
      level_block controller ios level (fst (draw get_rpm_of 5 r))
        ++ levels_trace get_rpm_of controller ios rest
             (snd (draw get_rpm_of 5 r))
  end.

(* ------------------------------------------------------------------ *)
(** ** The two threads around [self.lock]

    [_monitor_loop] runs on a daemon thread, [get_rpm] on the foreground
    thread.  Each statement is one atomic step; a scheduler picks which
    thread moves.  [with self.lock] is an acquire step, enabled only while
    the lock is free, and a release step. *)

Module Threads.

Inductive tid : Set := T_monitor | T_reader.

(** Program points of [_monitor_loop]. *)
Inductive mon_pc : Type :=
| M_setup                 (* epoll(), open(), register() *)
| M_test                  (* while self.running *)
| M_poll                  (* events = epoll.poll(1); if events *)
| M_clear                 (* f.seek(0); f.read() *)
| M_acquire               (* with self.lock: enter *)
| M_load                  (* read self.pulse_count *)
| M_store (tmp : Z)       (* self.pulse_count = tmp + 1 *)
| M_release               (* with self.lock: exit *)
| M_done                  (* loop left: running is false *)
| M_stopped (e : exn).    (* except Exception: print, thread ends *)

(** Program points of the foreground thread around [get_rpm]. *)
Inductive rd_pc : Type :=
| R_idle                                          (* outside get_rpm *)
| R_acquire                                       (* with self.lock: enter *)
| R_time                                          (* current_time = time.time() *)
| R_dt (current_time : float)                     (* dt = current_time - self.last_time *)
| R_count (current_time dt : float)               (* count = self.pulse_count *)
| R_reset_count (current_time dt : float) (count : Z)  (* self.pulse_count = 0 *)
| R_reset_time (current_time dt : float) (count : Z)   (* self.last_time = current_time *)
| R_release (current_time dt : float) (count : Z)      (* with self.lock: exit *)
| R_compute (dt : float) (count : Z).             (* the lines after the lock *)

Record config : Type := mkConfig {
  lock : option tid;
  obj : RPMReader;
  mon : mon_pc;
  rdr : rd_pc
}.

(** A scheduler choice together with what the environment answers at that
    step: for the monitor the outcome of its system call ([Ok true]: an
    edge was reported), for the reader the clock. *)
Inductive action : Type :=
| A_monitor (sys : result bool)
| A_reader (now : float).

(** What a step shows to an observer. *)
Inductive obs : Type :=
| Tau
| Counted                               (* the monitor stored count + 1 *)
| Captured (count : Z) (at_time : float)  (* get_rpm read the counter *)
| Returned (res : result Z).            (* get_rpm returned or raised *)

Definition set_count (r : RPMReader) (c : Z) : RPMReader :=
  {| running := running r; rpm_attr := rpm_attr r;
     pulse_count := c; last_time := last_time r |}.

Definition set_last_time (r : RPMReader) (t : float) : RPMReader :=
  {| running := running r; rpm_attr := rpm_attr r;
     pulse_count := pulse_count r; last_time := t |}.

Definition with_mon (c : config) (l : option tid) (o : RPMReader)
  (pc : mon_pc) : config :=
  {| lock := l; obj := o; mon := pc; rdr := rdr c |}.

Definition with_rdr (c : config) (l : option tid) (o : RPMReader)
  (pc : rd_pc) : config :=
  {| lock := l; obj := o; mon := mon c; rdr := pc |}.

(** One step of the monitor thread; [None] when it cannot move. *)
Definition step_monitor (sys : result bool) (c : config)
  : option (obs * config) :=
  match mon c with
  | M_setup =>
      match sys with
      | Ok _ => Some (Tau, with_mon c (lock c) (obj c) M_test)
      | Raise e => Some (Tau, with_mon c (lock c) (obj c) (M_stopped e))
      end
  | M_test =>
      Some (Tau, with_mon c (lock c) (obj c)
                   (if running (obj c) then M_poll else M_done))
  | M_poll =>
      match sys with
      | Ok true => Some (Tau, with_mon c (lock c) (obj c) M_clear)
      | Ok false => Some (Tau, with_mon c (lock c) (obj c) M_test)
      | Raise e => Some (Tau, with_mon c (lock c) (obj c) (M_stopped e))
      end
  | M_clear =>
      match sys with
      | Ok _ => Some (Tau, with_mon c (lock c) (obj c) M_acquire)
      | Raise e => Some (Tau, with_mon c (lock c) (obj c) (M_stopped e))
      end
  | M_acquire =>
      match lock c with
      | None => Some (Tau, with_mon c (Some T_monitor) (obj c) M_load)
      | Some _ => None
      end
  | M_load =>
      Some (Tau, with_mon c (lock c) (obj c) (M_store (pulse_count (obj c))))
  | M_store tmp =>
      Some (Counted, with_mon c (lock c) (set_count (obj c) (tmp + 1))
                       M_release)
  | M_release => Some (Tau, with_mon c None (obj c) M_test)
  | M_done => None
  | M_stopped _ => None
  end.

(** One step of the foreground thread; at [R_idle] it calls [get_rpm]. *)
Definition step_reader (now : float) (c : config) : option (obs * config) :=
  match rdr c with
  | R_idle => Some (Tau, with_rdr c (lock c) (obj c) R_acquire)
  | R_acquire =>
      match lock c with
      | None => Some (Tau, with_rdr c (Some T_reader) (obj c) R_time)
      | Some _ => None
      end
  | R_time => Some (Tau, with_rdr c (lock c) (obj c) (R_dt now))
  | R_dt ct =>
      Some (Tau, with_rdr c (lock c) (obj c)
                   (R_count ct (PrimFloat.sub ct (last_time (obj c)))))
  | R_count ct dt =>
      Some (Captured (pulse_count (obj c)) ct,
            with_rdr c (lock c) (obj c)
              (R_reset_count ct dt (pulse_count (obj c))))
  | R_reset_count ct dt count =>
      Some (Tau, with_rdr c (lock c) (set_count (obj c) 0)
                   (R_reset_time ct dt count))
  | R_reset_time ct dt count =>
      Some (Tau, with_rdr c (lock c) (set_last_time (obj c) ct)
                   (R_release ct dt count))
  | R_release ct dt count =>
      Some (Tau, with_rdr c None (obj c) (R_compute dt count))
  | R_compute dt count =>
      Some (Returned (rpm_value count dt), with_rdr c (lock c) (obj c) R_idle)
  end.

Definition step (a : action) (c : config) : option (obs * config) :=
  match a with
  | A_monitor sys => step_monitor sys c
  | A_reader now => step_reader now c
  end.

(** Run a schedule; a choice whose thread cannot move is skipped.  The
    observations come out in order. *)
Fixpoint run (sched : list action) (c : config) : list obs * config :=
  match sched with
  | [] => ([], c)
  | a :: rest =>
      match step a c with
      | Some (o, c') => let (os, c'') := run rest c' in (o :: os, c'')
      | None => run rest c
      end
  end.

(** The state when [RPMReader.__init__] has started the thread. *)
Definition start (now : float) : config :=
  {| lock := None; obj := RPMReader_init now; mon := M_setup; rdr := R_idle |}.

(** Number of [Counted] observations. *)
Fixpoint counted (os : list obs) : Z :=
  match os with
  | [] => 0
  | Counted :: rest => 1 + counted rest
  | _ :: rest => counted rest
  end.

Definition is_capture (o : obs) : bool :=
  match o with
  | Captured _ _ => true
  | _ => false
  end.

(** The counts captured by [get_rpm], in order. *)
Fixpoint captures (os : list obs) : list Z :=
  match os with
  | [] => []
  | Captured n _ :: rest => n :: captures rest
  | _ :: rest => captures rest
  end.

(** The reader holds the lock and has read the counter but not yet reset
    it. *)
Definition mid_reset (pc : rd_pc) : bool :=
  match pc with
  | R_reset_count _ _ _ => true
  | _ => false
  end.

(** The pulses counted and not yet handed to a [get_rpm] call. *)
Definition pending (c : config) : Z :=
  if mid_reset (rdr c) then 0 else pulse_count (obj c).

(** The lock is held by exactly the thread that is inside its [with]
    block. *)
Definition lock_ok (c : config) : Prop :=
  match mon c, rdr c with
  | (M_load | M_store _ | M_release),
    (R_idle | R_acquire | R_compute _ _) => lock c = Some T_monitor
  | (M_load | M_store _ | M_release), _ => False
  | _, (R_idle | R_acquire | R_compute _ _) => lock c = None
  | _, _ => lock c = Some T_reader
  end.

(** What the threads hold in their locals agrees with the object. *)
Definition locals_ok (c : config) : Prop :=
  match mon c with
  | M_store tmp => tmp = pulse_count (obj c)
  | _ => True
  end /\
  match rdr c with
  | R_reset_time ct _ _ => pulse_count (obj c) = 0
  | R_release ct _ _ => pulse_count (obj c) = 0 /\ last_time (obj c) = ct
  | _ => True
  end.

Definition inv (c : config) : Prop := lock_ok c /\ locals_ok c.

(** Sum of the counts captured. *)
Fixpoint consumed (os : list obs) : Z :=
  match os with
  | [] => 0
  | Captured n _ :: rest => n + consumed rest
  | _ :: rest => consumed rest
  end.

(** The results returned by [get_rpm], in order. *)
Fixpoint returns (os : list obs) : list (result Z) :=
  match os with
  | [] => []
  | Returned r :: rest => r :: returns rest
  | _ :: rest => returns rest
  end.

(** The reader is between its capture and the end of its two resets. *)
Definition resetting (pc : rd_pc) : bool :=
  match pc with
  | R_reset_count _ _ _ | R_reset_time _ _ _ => true
  | _ => false
  end.

(** The elapsed time held at [R_count] is relative to the stored
    timestamp. *)
Definition dt_ok (c : config) : Prop :=
  match rdr c with
  | R_count ct dt => dt = PrimFloat.sub ct (last_time (obj c))
  | _ => True
  end.

(** The timestamp of the object is [t], or is about to be set to it. *)
Definition stamped (t : float) (c : config) : Prop :=
  match rdr c with
  | R_reset_count ct _ _ | R_reset_time ct _ _ => ct = t
  | _ => last_time (obj c) = t
  end.

(** A call that captured [n] pulses over [dt] has not returned yet. *)
Definition in_flight (n : Z) (dt : float) (c : config) : Prop :=
  match rdr c with
  | R_reset_count _ d k | R_reset_time _ d k | R_release _ d k
  | R_compute d k => d = dt /\ k = n
  | _ => False
  end.

(** *** A sample schedule *)

Definition mon_steps (n : nat) : list action := repeat (A_monitor (Ok true)) n.

Definition rd_steps (now : float) (n : nat) : list action :=
  repeat (A_reader now) n.

(** One pulse, a call at time 3, two pulses, a third pulse whose monitor
    waits for the lock while a call at time 6 holds it, and counts after
    the call. *)
Definition sample_sched : list action :=
  mon_steps 2 ++ mon_steps 7 ++ rd_steps 3 9 ++ mon_steps 7 ++ mon_steps 7
  ++ mon_steps 2 ++ rd_steps 6 3 ++ mon_steps 2 ++ rd_steps 6 6
  ++ mon_steps 6 ++ [A_monitor (Ok false)].

Definition sample_pre : list obs := repeat Tau 6 ++ Counted :: repeat Tau 6.

Definition sample_mid : list obs :=
  repeat Tau 3 ++ Returned (Ok 10) :: repeat Tau 4 ++ Counted
    :: repeat Tau 6 ++ Counted :: repeat Tau 8.

Definition sample_post : list obs :=
  repeat Tau 3 ++ Returned (Ok 20) :: repeat Tau 2 ++ Counted :: repeat Tau 4.

Definition sample_final : config :=
  {| lock := None;
     obj := {| running := true; rpm_attr := 0; pulse_count := 1;
               last_time := 6 |};
     mon := M_acquire; rdr := R_idle |}.

End Threads.

(* ------------------------------------------------------------------ *)
(** ** Sample inputs *)

Definition reader_sample : RPMReader :=
  {| running := true; rpm_attr := 0; pulse_count := 100; last_time := 10 |}.

Definition sample_arrivals (k : nat) : nat * float :=
  (150%nat, match k with
            | 0%nat => 3%float
            | 1%nat => 6%float
            | 2%nat => 9%float
            | _ => 12%float
            end).

Definition sample_reader : RPMReader * nat := (RPMReader_init 0, 0%nat).

Definition fallback_controller : FanController :=
  {| pwm_path := None; period := 40000 |}.

Definition pwm_controller : FanController :=
  {| pwm_path := Some "/sys/class/pwm/pwmchip0"%string; period := 40000 |}.

Definition env_at (milli : Z) : tick_env :=
  {| te_policy := {| pol_exists := true; pol_read := Ok "user_space"%string;
                     pol_write := Ok tt |};
     te_temp := Ok milli;
     te_write := Ok tt |}.

Definition env_failed : tick_env :=
  {| te_policy := {| pol_exists := false; pol_read := Raise OSError;
                     pol_write := Raise OSError |};
     te_temp := Raise OSError;
     te_write := Ok tt |}.

Definition sample_chips : list chip_obs :=
  [ {| chip_path := "/sys/class/pwm/pwmchip0";
       of_node := Ok (Some "/sys/firmware/devicetree/base/pwm@fd8b0010"%string) |};
    {| chip_path := "/sys/class/pwm/pwmchip1"; of_node := Raise OSError |};
    {| chip_path := "/sys/class/pwm/pwmchip2"; of_node := Ok None |} ].

Definition sample_init_io : init_io :=
  {| pwm0_exists := false; export_io := Ok tt; disable_io := Ok tt;
     period_io := Ok tt; polarity_io := Raise OSError; enable_io := Ok tt |}.

Definition selftest_arrivals (k : nat) : nat * float :=
  (100%nat, Nat.iter (S k) (fun t => PrimFloat.add t 2) 0%float).


(* ------------------------------------------------------------------ *)
(** ** Startup: GPIO setup and [main] *)

Module Startup.

(** The files [setup_gpio] writes. *)
Inductive gpio_file : Type :=
| G_export
| G_direction
| G_edge.

(** [self.gpio_path]. *)
Definition gpio_path : string :=
  ("/sys/class/gpio/gpio" ++ str RPM_GPIO)%string.

Definition gpio_path_of (f : gpio_file) : string :=
  match f with
  | G_export => "/sys/class/gpio/export"
  | G_direction => path_join gpio_path "direction"
  | G_edge => path_join gpio_path "edge"
  end.

(** The lines printed by [setup_gpio] and by [main] itself. *)
Inductive main_line : Type :=
| L_starting
| L_gpio_error (e : exn)
| L_test_complete
| L_restoring (temp : float) (target : Z).

(** Events of the whole process: those of the controller and the loop, and
    those of the startup code. *)
Inductive main_event : Type :=
| Core (e : event)
| Gpio_write (f : gpio_file) (content : string)
| Main_print (l : main_line).

Definition MM (A : Type) : Type := (list main_event * result A)%type.

Definition retMM {A : Type} (a : A) : MM A := ([], Ok a).

Definition bindMM {A B : Type} (m : MM A) (k : A -> MM B) : MM B :=
  match m with
  | (ev, Ok a) => let (ev', r) := k a in (ev ++ ev', r)
  | (ev, Raise e) => (ev, Raise e)
  end.

Notation "x <== c1 ;; c2" := (bindMM c1 (fun x => c2))
  (at level 61, c1 at next level, right associativity).
Notation "c1 >>> c2" := (bindMM c1 (fun _ => c2))
  (at level 61, right associativity).

(** A command of the controller or the loop, run inside [main]. *)
Definition core {A : Type} (m : M A) : MM A := (map Core (fst m), snd m).

Definition main_print (l : main_line) : MM unit := ([Main_print l], Ok tt).

Definition gpio_write (f : gpio_file) (content : string) (io : result unit)
  : MM unit := ([Gpio_write f content], io).

(** What [setup_gpio] meets: whether the GPIO directory exists, and how
    its three writes end. *)
Record gpio_io : Type := mkGpioIo {
  gpio_exists : bool;
  gpio_export_io : result unit;
  direction_io : result unit;
  edge_io : result unit
}.

(** [RPMReader.setup_gpio]. *)
Definition setup_gpio (io : gpio_io) : MM unit :=
  (if gpio_exists io then retMM tt
   else match gpio_write G_export (str RPM_GPIO) (gpio_export_io io) >>>
              core (sleep 0.5%float) with
        | (ev, Raise OSError) => (ev, Ok tt)
        | other => other
        end) >>>
  match gpio_write G_direction "in" (direction_io io) >>>
        gpio_write G_edge "falling" (edge_io io) with
  | (ev, Raise e) => (ev ++ [Main_print (L_gpio_error e)], Ok tt)
  | other => other
  end.

(** [RPMReader.__init__]: the attributes, [setup_gpio], then the thread is
    started; [now] is what [time.time()] returns. *)
Definition RPMReader_new (now : float) (io : gpio_io) : MM RPMReader :=
  let self := RPMReader_init now in
  setup_gpio io >>>
  retMM self.

(** What [main] meets before the steady loop. *)
Record main_env : Type := mkMainEnv {
  m_policy : policy_obs;
  m_driver : option (result (list driver_entry));
  m_chips : list chip_obs;
  m_init_io : init_io;
  m_now : float;
  m_gpio : gpio_io;
  m_selftest_ios : Z -> result unit;
  m_arrivals : nat -> nat * float;
  m_test_temp : result Z;
  m_test_write : result unit
}.

(** [main]; [test_flag] is ["--test" in sys.argv], [ticks] what the first
    iterations of [while True] meet.  The result is [None] when [main]
    returned, and the state of the loop after these iterations otherwise. *)
Definition main (test_flag : bool) (env : main_env) (ticks : list tick_env)
  : MM (option (loop_state (RPMReader * nat))) :=
  main_print L_starting >>>
  core (set_policy_user_space (m_policy env)) >>>
  controller <== core (FanController_init (m_driver env) (m_chips env)
                         (m_init_io env)) ;;
  rpm_reader <== RPMReader_new (m_now env) (m_gpio env) ;;
  tested <== core (run_self_test (clocked_get_rpm (m_arrivals env))
                     controller (Some (rpm_reader, 0%nat))
                     (m_selftest_ios env)) ;;
  let rd := match tested with
            | Some r => r
            | None => (rpm_reader, 0%nat)
            end in
  if test_flag then
    main_print L_test_complete >>>
    temp <== core (read_temp (m_test_temp env)) ;;
    let target_speed := get_target_speed temp in
    main_print (L_restoring temp target_speed) >>>
    core (set_speed controller target_speed (m_test_write env)) >>>
    retMM None
  else
    st <== core (steady_loop (clocked_get_rpm (m_arrivals env)) controller
                   ticks (loop_entry rd)) ;;
    retMM (Some st).

(** The events of the controller and the loop in a trace of [main]. *)
Fixpoint core_events (evs : list main_event) : list event :=
  match evs with
  | [] => []
  | Core e :: rest => e :: core_events rest
  | _ :: rest => core_events rest
  end.

(** The writes of [setup_gpio] in a trace. *)
Fixpoint gpio_writes (evs : list main_event) : list (gpio_file * string) :=
  match evs with
  | [] => []
  | Gpio_write f c :: rest => (f, c) :: gpio_writes rest
  | _ :: rest => gpio_writes rest
  end.

(** An outcome that is a success or an [OSError]. *)
Definition benign (io : result unit) : bool :=
  match io with
  | Ok _ | Raise OSError => true
  | Raise _ => false
  end.

End Startup.

(* ------------------------------------------------------------------ *)
(** ** Further observations *)

(** The chip is the one [find_pwm_chip] looks for. *)
Definition chip_matches (c : chip_obs) : bool :=
  match of_node c with
  | Ok (Some real_path) => contains PWM_NODE_ADDR real_path
  | _ => false
  end.

(** [f] holds on the [n] integers from [lo] on. *)
Fixpoint all_from (n : nat) (lo : Z) (f : Z -> bool) : bool :=
  match n with
  | O => true
  | S n' => f lo && all_from n' (lo + 1) f
  end.

(** The thermal bands on millidegrees. *)
Definition milli_level (z : Z) : Z :=
  if z <=? 40000 then 1
  else if z <=? 50000 then 2
  else if z <=? 60000 then 3
  else 4.

(** On the reading [z], [read_temp] prints nothing and the policy gives the
    band of [z]. *)
Definition milli_ok (z : Z) : bool :=
  match read_temp (Ok z) with
  | ([], Ok t) => get_target_speed t =? milli_level z
  | _ => false
  end.

(** The duty cycle for the period of the script is 10000 per level. *)
Definition duty_linear (l : Z) : bool :=
  match duty_cycle_of 40000 l with
  | Ok d => d =? 10000 * l
  | Raise _ => false
  end.

(** The levels of a sequence of targets that differ from the level before
    them, [cur] being the level before the first. *)
Fixpoint changes (cur : Z) (targets : list Z) : list Z :=
  match targets with
  | [] => []
  | t :: rest => if t =? cur then changes cur rest else t :: changes t rest
  end.

(** A line printed by [set_speed] when its write failed. *)
Definition is_write_failure (e : event) : bool :=
  match e with
  | Print (L_duty_error _) | Print (L_cooling_error _) => true
  | _ => false
  end.

(** The links [release_kernel_driver] writes to [unbind]: the symlinks in
    order, up to and including the first whose write fails. *)
Fixpoint unbound (entries : list driver_entry) : list string :=
  match entries with
  | [] => []
  | d :: rest =>
      if is_link d
      then link_name d :: match unbind_io d with
                          | Ok _ => unbound rest
                          | Raise _ => []
                          end
      else unbound rest
  end.

(** The contents written to [f] in a trace, in order. *)
Fixpoint written (f : file -> bool) (evs : list event) : list string :=
  match evs with
  | [] => []
  | Write g c :: rest => if f g then c :: written f rest else written f rest
  | _ :: rest => written f rest
  end.

(** The files written in a trace, in order. *)
Fixpoint files_written (evs : list event) : list file :=
  match evs with
  | [] => []
  | Write g _ :: rest => g :: files_written rest
  | _ :: rest => files_written rest
  end.

Definition is_unbind (f : file) : bool :=
  match f with
  | F_unbind => true
  | _ => false
  end.

(** Not a write of [set_speed]. *)
Definition not_actuation (e : event) : Prop := is_actuation e = false.

(** The period file of a PWM channel. *)
Definition is_period (f : file) : bool :=
  match f with
  | F_pwm_period _ => true
  | _ => false
  end.

Module ThreadObs.

Import Threads.

(** The monitor is inside its [with self.lock] block. *)
Definition mon_in_lock (pc : mon_pc) : bool :=
  match pc with
  | M_load | M_store _ | M_release => true
  | _ => false
  end.

(** The foreground thread is inside the [with self.lock] block of
    [get_rpm]. *)
Definition rdr_in_lock (pc : rd_pc) : bool :=
  match pc with
  | R_idle | R_acquire | R_compute _ _ => false
  | _ => true
  end.

(** The monitor thread has ended. *)
Definition mon_ended (pc : mon_pc) : bool :=
  match pc with
  | M_done | M_stopped _ => true
  | _ => false
  end.

(** The counter, and the count a thread holds, are not negative. *)
Definition nonneg (c : config) : Prop :=
  0 <= pulse_count (obj c) /\
  match rdr c with
  | R_reset_count _ _ k | R_reset_time _ _ k | R_release _ _ k
  | R_compute _ k => 0 <= k
  | _ => True
  end.

(** The monitor has ended with nothing counted and nothing held. *)
Definition silent (c : config) : Prop :=
  mon_ended (mon c) = true /\ pulse_count (obj c) = 0 /\
  match rdr c with
  | R_reset_count _ _ k | R_reset_time _ _ k | R_release _ _ k
  | R_compute _ k => k = 0
  | _ => True
  end.

End ThreadObs.

(* ------------------------------------------------------------------ *)
(** ** Further sample inputs *)

Definition sample_entries : list driver_entry :=
  [ {| link_name := "fan0"; is_link := true; unbind_io := Ok tt |};
    {| link_name := "bind"; is_link := false; unbind_io := Ok tt |};
    {| link_name := "fan1"; is_link := true; unbind_io := Raise OSError |};
    {| link_name := "fan2"; is_link := true; unbind_io := Ok tt |} ].

(** A reader whose [get_rpm()] raises. *)
Definition stuck_reader (r : unit) : unit * result Z :=
  (r, Raise OverflowError).

(** A tick whose level write fails. *)
Definition env_write_fails (milli : Z) : tick_env :=
  {| te_policy := {| pol_exists := true; pol_read := Ok "step_wise"%string;
                     pol_write := Ok tt |};
     te_temp := Ok milli;
     te_write := Raise OSError |}.

(** What a start of [main] meets on a board with the PWM chip, the fan pin
    already exported, and 100 pulses every two seconds. *)
Definition sample_main_env : Startup.main_env :=
  {| Startup.m_policy := mkPolicyObs true (Ok "step_wise"%string) (Ok tt);
     Startup.m_driver := Some (Ok sample_entries);
     Startup.m_chips :=
       [ {| chip_path := "/sys/class/pwm/pwmchip0";
            of_node :=
              Ok (Some "/sys/firmware/devicetree/base/pwm@febf0020"%string)
         |} ];
     Startup.m_init_io := sample_init_io;
     Startup.m_now := 0%float;
     Startup.m_gpio :=
       {| Startup.gpio_exists := false;
          Startup.gpio_export_io := Raise OSError;
          Startup.direction_io := Ok tt;
          Startup.edge_io := Ok tt |};
     Startup.m_selftest_ios := fun _ => Ok tt;
     Startup.m_arrivals := selftest_arrivals;
     Startup.m_test_temp := Ok 52000;
     Startup.m_test_write := Ok tt |}.

(* ================================================================== *)
(** * Properties *)

(** ** Float comparisons *)

Lemma compare_cont_swap (p q : positive) :
  Pos.compare_cont Eq q p = CompOpp (Pos.compare_cont Eq p q).
Proof. rewrite Pos.compare_cont_antisym. reflexivity. Qed.

Lemma SFcompare_Lt_swap (a b : spec_float) :
  SFcompare a b = Some Lt -> SFcompare b a = Some Gt.
Proof.
  destruct a as [sa|sa| |sa ma ea], b as [sb|sb| |sb mb eb]; simpl;
    try discriminate;
    try (destruct sa; discriminate || reflexivity);
    try (destruct sb; discriminate || reflexivity);
    try (destruct sa, sb; discriminate || reflexivity).
  destruct sa, sb; try discriminate; try reflexivity;
    rewrite (Z.compare_antisym ea eb), (compare_cont_swap ma mb);
    destruct (ea ?= eb); simpl; try discriminate; try reflexivity;
    destruct (Pos.compare_cont Eq ma mb); simpl; discriminate || reflexivity.
Qed.

Lemma ltb_leb_swap (x y : float) :
  PrimFloat.ltb x y = true -> PrimFloat.leb y x = false.
Proof.
  rewrite ltb_spec, leb_spec. unfold SFltb, SFleb.
  destruct (SFcompare (Prim2SF x) (Prim2SF y)) as [[]|] eqn:E;
    try discriminate.
  intros _. now rewrite (SFcompare_Lt_swap _ _ E).
Qed.

Lemma ltb_eqb_swap (x y : float) :
  PrimFloat.ltb x y = true -> PrimFloat.eqb y x = false.
Proof.
  rewrite ltb_spec, eqb_spec. unfold SFltb, SFeqb.
  destruct (SFcompare (Prim2SF x) (Prim2SF y)) as [[]|] eqn:E;
    try discriminate.
  intros _. now rewrite (SFcompare_Lt_swap _ _ E).
Qed.

(** Below a positive bound, below every larger bound of the same
    exponent. *)
Lemma SFleb_widen (x : spec_float) (m1 m2 : positive) (e : Z) :
  (m1 <= m2)%positive ->
  SFleb x (S754_finite false m1 e) = true ->
  SFleb x (S754_finite false m2 e) = true.
Proof.
  intros Hm. unfold SFleb.
  destruct x as [[]|[]| |[] m ex]; simpl; try discriminate; try reflexivity.
  destruct (ex ?= e); try discriminate; try reflexivity.
  change (Pos.compare_cont Eq m m1) with (Pos.compare m m1).
  change (Pos.compare_cont Eq m m2) with (Pos.compare m m2).
  destruct (Pos.compare m m1) eqn:E1; try discriminate; intros _.
  - apply Pos.compare_eq in E1. subst m.
    destruct (Pos.compare m1 m2) eqn:E2; try reflexivity.
    rewrite Pos.compare_gt_iff in E2. lia.
  - rewrite Pos.compare_lt_iff in E1.
    destruct (Pos.compare m m2) eqn:E2; try reflexivity.
    rewrite Pos.compare_gt_iff in E2. lia.
Qed.

Lemma leb_40_50 (t : float) :
  PrimFloat.leb t 40 = true -> PrimFloat.leb t 50 = true.
Proof.
  rewrite !leb_spec.
  change (Prim2SF 40) with (S754_finite false 5629499534213120 (-47)).
  change (Prim2SF 50) with (S754_finite false 7036874417766400 (-47)).
  apply SFleb_widen. lia.
Qed.

Lemma leb_50_60 (t : float) :
  PrimFloat.leb t 50 = true -> PrimFloat.leb t 60 = true.
Proof.
  rewrite !leb_spec.
  change (Prim2SF 50) with (S754_finite false 7036874417766400 (-47)).
  change (Prim2SF 60) with (S754_finite false 8444249301319680 (-47)).
  apply SFleb_widen. lia.
Qed.

(** ** Thermal policy *)

Lemma get_target_speed_range (t : float) :
  get_target_speed t = 1 \/ get_target_speed t = 2 \/
  get_target_speed t = 3 \/ get_target_speed t = 4.
Proof.
  unfold get_target_speed.
  destruct (PrimFloat.leb t 40); [auto|].
  destruct (PrimFloat.leb t 50); [auto|].
  destruct (PrimFloat.leb t 60); auto.
Qed.

(** C3: the thermal policy is the piecewise map with inclusive upper
    bounds: [t <= 40] gives 1, [40 < t <= 50] gives 2, [50 < t <= 60] gives
    3, [t > 60] gives 4; it gives 1, 2, 3, 4 at 40.0, 40.1, 60.0, 60.1; and
    it never gives 0. *)
Theorem thermal_policy_piecewise (t : float) :
  (PrimFloat.leb t 40 = true -> get_target_speed t = 1) /\
  (PrimFloat.ltb 40 t = true -> PrimFloat.leb t 50 = true ->
   get_target_speed t = 2) /\
  (PrimFloat.ltb 50 t = true -> PrimFloat.leb t 60 = true ->
   get_target_speed t = 3) /\
  (PrimFloat.ltb 60 t = true -> get_target_speed t = 4) /\
  get_target_speed 40.0 = 1 /\ get_target_speed 40.1 = 2 /\
  get_target_speed 60.0 = 3 /\ get_target_speed 60.1 = 4 /\
  get_target_speed t <> 0.
Proof.
  assert (forall a, PrimFloat.ltb a t = true -> PrimFloat.leb t a = false)
    as swap by (intros a; apply ltb_leb_swap).
  repeat split; try reflexivity.
  - unfold get_target_speed. intros ->. reflexivity.
  - unfold get_target_speed. intros H1 ->. now rewrite (swap _ H1).
  - unfold get_target_speed. intros H1 H2. rewrite H2, (swap _ H1).
    destruct (PrimFloat.leb t 40) eqn:E; [|reflexivity].
    apply leb_40_50 in E. rewrite (swap _ H1) in E. discriminate.
  - unfold get_target_speed. intros H1. rewrite (swap _ H1).
    destruct (PrimFloat.leb t 50) eqn:E50.
    { apply leb_50_60 in E50. rewrite (swap _ H1) in E50. discriminate. }
    destruct (PrimFloat.leb t 40) eqn:E40; [|reflexivity].
    apply leb_40_50 in E40. congruence.
  - destruct (get_target_speed_range t) as [H|[H|[H|H]]]; rewrite H;
      discriminate.
Qed.

Lemma thermal_policy_piecewise_witness :
  get_target_speed 45.5 = 2 /\ get_target_speed 55.0 = 3 /\
  get_target_speed 100.0 = 4 /\ get_target_speed 12.25 = 1.
Proof.
  destruct (thermal_policy_piecewise 45.5) as (_ & H2 & _).
  destruct (thermal_policy_piecewise 55.0) as (_ & _ & H3 & _).
  destruct (thermal_policy_piecewise 100.0) as (_ & _ & _ & H4 & _).
  destruct (thermal_policy_piecewise 12.25) as (H1 & _).
  split; [|split; [|split]].
  - apply H2; reflexivity.
  - apply H3; reflexivity.
  - apply H4; reflexivity.
  - apply H1; reflexivity.
Defined.

(** ** Conversions *)

(** A float that is neither NaN nor infinite is a zero or a finite
    number. *)
Lemma finite_Prim2SF (f : float) :
  PrimFloat.is_nan f || PrimFloat.is_infinity f = false ->
  (exists s, Prim2SF f = S754_zero s) \/
  (exists s m e, Prim2SF f = S754_finite s m e).
Proof.
  intros H. apply orb_false_elim in H. destruct H as [Hn Hi].
  unfold PrimFloat.is_nan in Hn. unfold PrimFloat.is_infinity in Hi.
  rewrite eqb_spec in Hn. rewrite eqb_spec, abs_spec in Hi.
  destruct (Prim2SF f) as [s|s| |s m e] eqn:E.
  - left. now exists s.
  - exfalso. destruct s; discriminate.
  - discriminate.
  - right. now exists s, m, e.
Qed.

Lemma float_of_int_finite (z : Z) (f : float) :
  float_of_int z = Ok f ->
  (exists s, Prim2SF f = S754_zero s) \/
  (exists s m e, Prim2SF f = S754_finite s m e).
Proof.
  unfold float_of_int.
  destruct (PrimFloat.is_nan _ || PrimFloat.is_infinity _) eqn:E;
    [discriminate|].
  intros [= <-]. now apply finite_Prim2SF.
Qed.

(** A finite float times zero truncates to the int 0. *)
Lemma int_of_mul_zero (f : float) :
  ((exists s, Prim2SF f = S754_zero s) \/
   (exists s m e, Prim2SF f = S754_finite s m e)) ->
  int_of_float (PrimFloat.mul f 0) = Ok 0.
Proof.
  intros H. unfold int_of_float. rewrite mul_spec.
  change (Prim2SF 0) with (S754_zero false).
  destruct H as [[s ->]|(s & m & e & ->)]; reflexivity.
Qed.

(** ** RPMReader.get_rpm *)

(** C2 (amended): with [c] the captured count and [dt] the elapsed time,
    [get_rpm] returns 0 when [dt == 0], and when [dt > 0] it returns
    [int((c / 2.0) * (60.0 / dt))], the rate truncated toward zero, never
    dividing by zero. *)
Theorem get_rpm_rate (r : RPMReader) (now : float) :
  let dt := PrimFloat.sub now (last_time r) in
  (PrimFloat.eqb dt 0 = true -> snd (get_rpm now r) = Ok 0) /\
  (PrimFloat.ltb 0 dt = true ->
   snd (get_rpm now r) =
   (cf <- float_of_int (pulse_count r) ;;
    int_of_float (PrimFloat.mul (PrimFloat.div cf 2) (PrimFloat.div 60 dt)))).
Proof.
  intros dt. unfold get_rpm, rpm_value. cbn [snd]. fold dt. split.
  - intros ->. reflexivity.
  - intros H. rewrite (ltb_eqb_swap _ _ H).
    destruct (float_of_int (pulse_count r)) as [cf|e]; [|reflexivity].
    unfold truediv. cbn [bind].
    change (PrimFloat.eqb 2 0) with false. cbn [bind].
    now rewrite (ltb_eqb_swap _ _ H).
Qed.

Lemma get_rpm_rate_witness :
  snd (get_rpm 10 reader_sample) = Ok 0 /\
  snd (get_rpm 13 reader_sample) = Ok 1000.
Proof.
  split.
  - apply (get_rpm_rate reader_sample 10). reflexivity.
  - rewrite (proj2 (get_rpm_rate reader_sample 13)); reflexivity.
Defined.

(** One pulse in seven seconds: the rate is 30/7, [get_rpm] returns 4. *)
Lemma get_rpm_truncates :
  let r := {| running := true; rpm_attr := 0; pulse_count := 1;
              last_time := 0 |} in
  PrimFloat.ltb 0 (PrimFloat.sub 7 (last_time r)) = true /\
  snd (get_rpm 7 r) = Ok 4 /\
  PrimFloat.ltb 4 (PrimFloat.mul (PrimFloat.div 1 2) (PrimFloat.div 60 7))
  = true /\
  4 * (2 * 7) <> pulse_count r * 60.
Proof.
  cbv zeta. split; [reflexivity|]. split; [reflexivity|].
  split; [reflexivity|]. cbn. lia.
Qed.

(** ** FanController.set_speed *)

Lemma duty_cycle_shipped (l : Z) :
  0 <= l <= 4 -> duty_cycle_of 40000 l = Ok (40000 * l / 4).
Proof.
  intros H.
  assert (l = 0 \/ l = 1 \/ l = 2 \/ l = 3 \/ l = 4) as D by lia.
  destruct D as [->|[->|[->|[->| ->]]]]; reflexivity.
Qed.

Lemma set_speed_pwm_events (chip : string) (p l d : Z) (io : result unit) :
  chip <> EmptyString ->
  duty_cycle_of p l = Ok d ->
  set_speed {| pwm_path := Some chip; period := p |} l io =
  (Write (F_duty_cycle chip) (str d) :: write_failure L_duty_error io, Ok tt).
Proof.
  intros Hc Hd. unfold set_speed, pwm_chip. cbn [pwm_path period].
  destruct chip; [congruence|]. rewrite Hd.
  destruct io as [[]|e]; reflexivity.
Qed.

(** C5 (amended): for PWM actuation [set_speed(level)] writes
    [int(period * (level / 4.0))], the product truncated toward zero, which
    for the period 40000 of the script and the levels 0..4 is exactly
    [period * level / 4]; and [set_speed(0)] writes 0 for every period that
    converts to a float. *)
Theorem set_speed_pwm_duty (chip : string) (p l : Z) (io : result unit) :
  chip <> EmptyString ->
  let self := {| pwm_path := Some chip; period := p |} in
  (forall pf lf d,
     float_of_int p = Ok pf -> float_of_int l = Ok lf ->
     int_of_float (PrimFloat.mul pf (PrimFloat.div lf 4)) = Ok d ->
     l <> 0 ->
     set_speed self l io =
     (Write (F_duty_cycle chip) (str d) :: write_failure L_duty_error io,
      Ok tt)) /\
  (forall pf,
     float_of_int p = Ok pf ->
     set_speed self 0 io =
     (Write (F_duty_cycle chip) "0" :: write_failure L_duty_error io,
      Ok tt)) /\
  (p = 40000 -> 0 <= l <= 4 ->
   4 * (p * l / 4) = p * l /\
   set_speed self l io =
   (Write (F_duty_cycle chip) (str (p * l / 4))
      :: write_failure L_duty_error io, Ok tt)).
Proof.
  intros Hc self. repeat split.
  - intros pf lf d Hp Hl Hd Hnz. apply set_speed_pwm_events; [assumption|].
    unfold duty_cycle_of. rewrite Hl. unfold truediv.
    change (PrimFloat.eqb 4 0) with false. cbn [bind]. rewrite Hp.
    cbn [bind]. rewrite Hd. cbn [bind].
    apply Z.eqb_neq in Hnz. now rewrite Hnz.
  - intros pf Hp. change "0"%string with (str 0).
    apply set_speed_pwm_events; [assumption|].
    unfold duty_cycle_of. change (float_of_int 0) with (Ok 0%float).
    unfold truediv. change (PrimFloat.eqb 4 0) with false. cbn [bind].
    rewrite Hp. cbn [bind]. change (PrimFloat.div 0 4) with 0%float.
    rewrite (int_of_mul_zero pf (float_of_int_finite _ _ Hp)). reflexivity.
  - subst p. assert (l = 0 \/ l = 1 \/ l = 2 \/ l = 3 \/ l = 4) as D by lia.
    destruct D as [->|[->|[->|[->| ->]]]]; reflexivity.
  - subst p. intros. apply set_speed_pwm_events; [assumption|].
    now apply duty_cycle_shipped.
Qed.

Lemma set_speed_pwm_duty_witness :
  set_speed {| pwm_path := Some "/sys/class/pwm/pwmchip0"%string;
               period := 40001 |} 3 (Ok tt) =
  ([Write (F_duty_cycle "/sys/class/pwm/pwmchip0") "30000"], Ok tt) /\
  set_speed {| pwm_path := Some "/sys/class/pwm/pwmchip0"%string;
               period := 40001 |} 0 (Raise OSError) =
  ([Write (F_duty_cycle "/sys/class/pwm/pwmchip0") "0";
    Print (L_duty_error OSError)], Ok tt) /\
  set_speed {| pwm_path := Some "/sys/class/pwm/pwmchip0"%string;
               period := 40000 |} 3 (Ok tt) =
  ([Write (F_duty_cycle "/sys/class/pwm/pwmchip0") "30000"], Ok tt).
Proof.
  assert ("/sys/class/pwm/pwmchip0"%string <> EmptyString) as Hc
    by discriminate.
  split; [|split].
  - refine (proj1 (set_speed_pwm_duty _ 40001 3 (Ok tt) Hc)
                  40001%float 3%float 30000 _ _ _ _);
      [reflexivity|reflexivity|reflexivity|lia].
  - refine (proj1 (proj2 (set_speed_pwm_duty _ 40001 0 (Raise OSError) Hc))
                  40001%float _). reflexivity.
  - refine (proj2 (proj2 (proj2 (set_speed_pwm_duty _ 40000 3 (Ok tt) Hc))
                         eq_refl _)). lia.
Defined.

(** With a period of 40001 and level 1 the product is 10000.25 and the
    duty cycle written is 10000. *)
Lemma set_speed_duty_truncates :
  set_speed {| pwm_path := Some "/sys/class/pwm/pwmchip0"%string;
               period := 40001 |} 1 (Ok tt) =
  ([Write (F_duty_cycle "/sys/class/pwm/pwmchip0") "10000"], Ok tt) /\
  4 * 10000 <> 40001 * 1.
Proof. split; [reflexivity|lia]. Qed.

(** ** Ticks of the steady loop *)

Lemma read_temp_returns (raw : result Z) :
  read_temp raw = (fst (read_temp raw), Ok (temp_read raw)).
Proof.
  unfold temp_read, read_temp.
  destruct raw as [z|e]; [|reflexivity].
  cbn. destruct (float_of_int z) as [zf|e]; reflexivity.
Qed.

Lemma read_temp_quiet (raw : result Z) (e : event) :
  In e (fst (read_temp raw)) -> is_actuation e = false /\ is_status e = false.
Proof.
  unfold read_temp. destruct raw as [z|x]; cbn.
  - destruct (float_of_int z) as [zf|x]; cbn; [tauto|].
    intros [<-|[]]. now split.
  - intros [<-|[]]. now split.
Qed.

Lemma set_policy_returns (p : policy_obs) :
  set_policy_user_space p = (fst (set_policy_user_space p), Ok tt).
Proof.
  unfold set_policy_user_space.
  destruct (pol_exists p); [|reflexivity].
  destruct (pol_read p) as [cur|e]; [|reflexivity].
  cbn. destruct (String.eqb cur "user_space"); [reflexivity|].
  destruct (pol_write p) as [[]|e]; reflexivity.
Qed.

Lemma set_policy_quiet (p : policy_obs) (e : event) :
  In e (fst (set_policy_user_space p)) ->
  is_actuation e = false /\ is_status e = false.
Proof.
  unfold set_policy_user_space.
  destruct (pol_exists p); [|intros []].
  destruct (pol_read p) as [cur|x]; [|intros []].
  cbn. destruct (String.eqb cur "user_space"); [intros []|].
  destruct (pol_write p) as [[]|x]; cbn; intros [<-|[]]; now split.
Qed.

Lemma set_speed_shipped (c : FanController) (l : Z) (io : result unit) :
  period c = 40000 -> 0 <= l <= 4 ->
  set_speed c l io = (actuation_write c l :: failure_line c io, Ok tt).
Proof.
  intros Hp Hl. unfold set_speed, actuation_write, failure_line.
  destruct (pwm_chip c) as [chip|].
  - rewrite Hp, (duty_cycle_shipped l Hl).
    destruct io as [[]|e]; reflexivity.
  - destruct io as [[]|e]; reflexivity.
Qed.

Section TickFacts.

Variable R : Type.
Variable get_rpm_of : R -> R * result Z.
Variable controller : FanController.
Hypothesis shipped : period controller = 40000.

Lemma steady_tick_spec (env : tick_env) (st : loop_state R) (rd : R)
  (rpm : Z) :
  get_rpm_of (rpm_reader_of st) = (rd, Ok rpm) ->
  let temp := temp_read (te_temp env) in
  let target := get_target_speed temp in
  steady_tick get_rpm_of controller env st =
  (fst (set_policy_user_space (te_policy env))
     ++ fst (read_temp (te_temp env))
     ++ gated_events controller env st rpm ++ [Sleep POLL_INTERVAL],
   Ok {| rpm_reader_of := rd;
         current_speed := target;
         last_rpm := if negb (target =? current_speed st)
                        || (Z.abs (rpm - last_rpm st) >? 100)
                     then rpm else last_rpm st |}).
Proof.
  intros Hget temp target. unfold steady_tick, gated_events.
  rewrite set_policy_returns, read_temp_returns, Hget.
  assert (0 <= target <= 4) as Ht.
  { unfold target. destruct (get_target_speed_range temp) as [H|[H|[H|H]]];
      rewrite H; lia. }
  cbn [bindM lift]. subst target. fold temp.
  generalize dependent (get_target_speed temp). intros target Ht.
  destruct (target =? current_speed st) eqn:E; cbn [negb orb].
  - apply Z.eqb_eq in E. subst target.
    destruct (Z.abs (rpm - last_rpm st) >? 100); cbn;
      rewrite ?app_nil_r; reflexivity.
  - rewrite (set_speed_shipped controller target (te_write env) shipped Ht).
    cbn. rewrite ?app_nil_r. reflexivity.
Qed.

End TickFacts.

Lemma actuations_app (a b : list event) :
  actuations (a ++ b) = actuations a ++ actuations b.
Proof. apply filter_app. Qed.

Lemma statuses_app (a b : list event) :
  statuses (a ++ b) = statuses a ++ statuses b.
Proof. apply filter_app. Qed.

Lemma filter_none {A : Type} (f : A -> bool) (l : list A) :
  (forall x, In x l -> f x = false) -> filter f l = [].
Proof.
  induction l as [|x l IH]; intros H; [reflexivity|].
  cbn. rewrite (H x (or_introl eq_refl)). apply IH.
  intros y Hy. apply H. now right.
Qed.

Lemma is_actuation_write (c : FanController) (l : Z) :
  is_actuation (actuation_write c l) = true /\
  is_status (actuation_write c l) = false.
Proof. unfold actuation_write. destruct (pwm_chip c); now split. Qed.

Lemma failure_line_quiet (c : FanController) (io : result unit) :
  actuations (failure_line c io) = [] /\ statuses (failure_line c io) = [].
Proof.
  unfold failure_line. destruct (pwm_chip c), io as [[]|e]; now split.
Qed.

Section GateFacts.

Variable R : Type.
Variable get_rpm_of : R -> R * result Z.
Variable controller : FanController.
Hypothesis shipped : period controller = 40000.

Lemma gated_actuations (env : tick_env) (st : loop_state R) (rpm : Z) :
  actuations (gated_events controller env st rpm) =
  if target_of env =? current_speed st then []
  else [actuation_write controller (target_of env)].
Proof.
  unfold gated_events, target_of.
  destruct (_ =? current_speed st); cbn [negb orb].
  - destruct (Z.abs _ >? 100); reflexivity.
  - unfold actuations. cbn [filter is_actuation].
    rewrite (proj1 (is_actuation_write _ _)).
    fold (actuations (failure_line controller (te_write env))).
    now rewrite (proj1 (failure_line_quiet _ _)).
Qed.

Lemma gated_statuses (env : tick_env) (st : loop_state R) (rpm : Z) :
  statuses (gated_events controller env st rpm) =
  if negb (target_of env =? current_speed st)
     || (Z.abs (rpm - last_rpm st) >? 100)
  then [Print (L_status (temp_read (te_temp env)) (target_of env) rpm)]
  else [].
Proof.
  unfold gated_events, target_of.
  destruct (negb _ || _); [|reflexivity].
  unfold statuses. cbn [filter is_status]. f_equal.
  destruct (negb _); [|reflexivity].
  cbn [filter]. rewrite (proj2 (is_actuation_write _ _)).
  apply (proj2 (failure_line_quiet _ _)).
Qed.

Lemma tick_actuations (env : tick_env) (st : loop_state R) (rd : R)
  (rpm : Z) :
  get_rpm_of (rpm_reader_of st) = (rd, Ok rpm) ->
  actuations (fst (steady_tick get_rpm_of controller env st)) =
  if target_of env =? current_speed st then []
  else [actuation_write controller (target_of env)].
Proof.
  intros Hget.
  rewrite (steady_tick_spec R get_rpm_of controller shipped env st rd rpm Hget).
  cbn [fst]. rewrite !actuations_app, gated_actuations.
  unfold actuations at 1 2.
  rewrite (filter_none is_actuation _
             (fun e H => proj1 (set_policy_quiet _ e H))).
  rewrite (filter_none is_actuation _
             (fun e H => proj1 (read_temp_quiet _ e H))).
  cbn. now rewrite app_nil_r.
Qed.

Lemma tick_statuses (env : tick_env) (st : loop_state R) (rd : R)
  (rpm : Z) :
  get_rpm_of (rpm_reader_of st) = (rd, Ok rpm) ->
  statuses (fst (steady_tick get_rpm_of controller env st)) =
  if negb (target_of env =? current_speed st)
     || (Z.abs (rpm - last_rpm st) >? 100)
  then [Print (L_status (temp_read (te_temp env)) (target_of env) rpm)]
  else [].
Proof.
  intros Hget.
  rewrite (steady_tick_spec R get_rpm_of controller shipped env st rd rpm Hget).
  cbn [fst]. rewrite !statuses_app, gated_statuses.
  unfold statuses at 1 2.
  rewrite (filter_none is_status _
             (fun e H => proj2 (set_policy_quiet _ e H))).
  rewrite (filter_none is_status _
             (fun e H => proj2 (read_temp_quiet _ e H))).
  cbn. now rewrite app_nil_r.
Qed.

Lemma tick_next (env : tick_env) (st : loop_state R) (rd : R) (rpm : Z) :
  get_rpm_of (rpm_reader_of st) = (rd, Ok rpm) ->
  exists st1,
    snd (steady_tick get_rpm_of controller env st) = Ok st1 /\
    rpm_reader_of st1 = rd /\
    current_speed st1 = target_of env /\
    last_rpm st1 = if negb (target_of env =? current_speed st)
                      || (Z.abs (rpm - last_rpm st) >? 100)
                   then rpm else last_rpm st.
Proof.
  intros Hget.
  rewrite (steady_tick_spec R get_rpm_of controller shipped env st rd rpm Hget).
  eexists. split; [reflexivity|]. now repeat split.
Qed.

Lemma steady_loop_cons (env : tick_env) (rest : list tick_env)
  (st st1 : loop_state R) :
  snd (steady_tick get_rpm_of controller env st) = Ok st1 ->
  steady_loop get_rpm_of controller (env :: rest) st =
  (fst (steady_tick get_rpm_of controller env st)
     ++ fst (steady_loop get_rpm_of controller rest st1),
   snd (steady_loop get_rpm_of controller rest st1)).
Proof.
  intros H. cbn [steady_loop].
  destruct (steady_tick get_rpm_of controller env st) as [evs1 r].
  cbn [snd] in H. subst r. cbn [bindM fst].
  now destruct (steady_loop get_rpm_of controller rest st1).
Qed.

(** While the target stays at the applied level the loop runs on and writes
    nothing. *)
Lemma steady_loop_in_band (envs : list tick_env) (st : loop_state R) :
  Forall (fun env => target_of env = current_speed st) envs ->
  calls_ok get_rpm_of (List.length envs) (rpm_reader_of st) = true ->
  is_ok (snd (steady_loop get_rpm_of controller envs st)) = true /\
  actuations (fst (steady_loop get_rpm_of controller envs st)) = [].
Proof.
  revert st. induction envs as [|env rest IH]; intros st Hband Hok.
  - now split.
  - inversion Hband as [|? ? Henv Hrest]; subst.
    cbn [List.length calls_ok] in Hok.
    destruct (get_rpm_of (rpm_reader_of st)) as [rd [rpm|e]] eqn:Hget;
      [|discriminate].
    cbn [is_ok andb] in Hok.
    destruct (tick_next env st rd rpm Hget) as (st1 & Hst1 & Hrd & Hcs & _).
    pose proof (tick_actuations env st rd rpm Hget) as Hact.
    rewrite Henv, Z.eqb_refl in Hact.
    rewrite (steady_loop_cons env rest st st1 Hst1). cbn [fst snd].
    destruct (IH st1) as [IH1 IH2].
    + now rewrite Hcs, Henv.
    + now rewrite Hrd.
    + split; [exact IH1|]. now rewrite actuations_app, Hact, IH2.
Qed.

End GateFacts.

(** ** The steady loop *)

(** C4: in a tick of the steady loop [set_speed] writes if and only if the
    target level of the tick differs from the applied level, and then once;
    over a run of ticks whose temperatures all map to one level, entered
    from another level, there is exactly one write, in the first tick. *)
Theorem actuation_gate (R : Type) (get_rpm_of : R -> R * result Z)
  (controller : FanController) :
  period controller = 40000 ->
  (forall env st rd rpm,
     get_rpm_of (rpm_reader_of st) = (rd, Ok rpm) ->
     is_ok (snd (steady_tick get_rpm_of controller env st)) = true /\
     (target_of env <> current_speed st ->
      actuations (fst (steady_tick get_rpm_of controller env st)) =
      [actuation_write controller (target_of env)]) /\
     (target_of env = current_speed st ->
      actuations (fst (steady_tick get_rpm_of controller env st)) = [])) /\
  (forall env rest st level,
     Forall (fun env => target_of env = level) (env :: rest) ->
     calls_ok get_rpm_of (S (List.length rest)) (rpm_reader_of st) = true ->
     current_speed st <> level ->
     exists st1,
       snd (steady_tick get_rpm_of controller env st) = Ok st1 /\
       is_ok (snd (steady_loop get_rpm_of controller (env :: rest) st))
       = true /\
       actuations (fst (steady_tick get_rpm_of controller env st)) =
       [actuation_write controller level] /\
       actuations (fst (steady_loop get_rpm_of controller rest st1)) = [] /\
       actuations (fst (steady_loop get_rpm_of controller (env :: rest) st)) =
       [actuation_write controller level]).
Proof.
  intros shipped. split.
  - intros env st rd rpm Hget.
    destruct (tick_next R get_rpm_of controller shipped env st rd rpm Hget)
      as (st1 & Hst1 & _).
    rewrite (tick_actuations R get_rpm_of controller shipped env st rd rpm
               Hget), Hst1.
    split; [reflexivity|]. split; intros H.
    + apply Z.eqb_neq in H. now rewrite H.
    + now rewrite H, Z.eqb_refl.
  - intros env rest st level Hband Hok Hne.
    inversion Hband as [|? ? Henv Hrest]; subst.
    cbn [calls_ok] in Hok.
    destruct (get_rpm_of (rpm_reader_of st)) as [rd [rpm|e]] eqn:Hget;
      [|discriminate].
    cbn [is_ok andb] in Hok.
    destruct (tick_next R get_rpm_of controller shipped env st rd rpm Hget)
      as (st1 & Hst1 & Hrd & Hcs & _).
    pose proof (tick_actuations R get_rpm_of controller shipped env st rd rpm
                  Hget) as Hact.
    assert ((target_of env =? current_speed st) = false) as Hneq
      by (apply Z.eqb_neq; congruence).
    rewrite Hneq in Hact.
    destruct (steady_loop_in_band R get_rpm_of controller shipped rest st1)
      as [Hrun Hquiet].
    + now rewrite Hcs.
    + now rewrite Hrd.
    + exists st1. rewrite (steady_loop_cons R get_rpm_of controller env rest
                             st st1 Hst1).
      cbn [fst snd]. rewrite actuations_app, Hact, Hquiet.
      repeat split; try assumption; reflexivity.
Qed.

Lemma actuation_gate_witness :
  exists st1,
    snd (steady_tick (clocked_get_rpm sample_arrivals) pwm_controller
           (env_at 45000) (loop_entry sample_reader)) = Ok st1 /\
    is_ok (snd (steady_loop (clocked_get_rpm sample_arrivals) pwm_controller
                  [env_at 45000; env_at 47000; env_at 49500]
                  (loop_entry sample_reader))) = true /\
    actuations (fst (steady_tick (clocked_get_rpm sample_arrivals)
                       pwm_controller (env_at 45000)
                       (loop_entry sample_reader))) =
    [actuation_write pwm_controller 2] /\
    actuations (fst (steady_loop (clocked_get_rpm sample_arrivals)
                       pwm_controller [env_at 47000; env_at 49500] st1)) = [] /\
    actuations (fst (steady_loop (clocked_get_rpm sample_arrivals)
                       pwm_controller
                       [env_at 45000; env_at 47000; env_at 49500]
                       (loop_entry sample_reader))) =
    [actuation_write pwm_controller 2].
Proof.
  apply (proj2 (actuation_gate _ (clocked_get_rpm sample_arrivals)
                  pwm_controller eq_refl)).
  - repeat constructor.
  - reflexivity.
  - discriminate.
Defined.

(** C8: in a tick of the steady loop the status line is printed if and only
    if the target level differs from the applied level or the rate differs
    from the last logged rate by more than 100; the last logged rate becomes
    the rate of the tick when the line is printed and is kept otherwise. *)
Theorem logging_gate (R : Type) (get_rpm_of : R -> R * result Z)
  (controller : FanController) (env : tick_env) (st : loop_state R)
  (rd : R) (rpm : Z) :
  period controller = 40000 ->
  get_rpm_of (rpm_reader_of st) = (rd, Ok rpm) ->
  exists st1,
    snd (steady_tick get_rpm_of controller env st) = Ok st1 /\
    (target_of env <> current_speed st \/ Z.abs (rpm - last_rpm st) > 100 ->
     statuses (fst (steady_tick get_rpm_of controller env st)) =
     [Print (L_status (temp_read (te_temp env)) (target_of env) rpm)] /\
     last_rpm st1 = rpm) /\
    (~ (target_of env <> current_speed st \/
        Z.abs (rpm - last_rpm st) > 100) ->
     statuses (fst (steady_tick get_rpm_of controller env st)) = [] /\
     last_rpm st1 = last_rpm st).
Proof.
  intros shipped Hget.
  destruct (tick_next R get_rpm_of controller shipped env st rd rpm Hget)
    as (st1 & Hst1 & _ & _ & Hlast).
  exists st1. split; [exact Hst1|].
  rewrite (tick_statuses R get_rpm_of controller shipped env st rd rpm Hget),
    Hlast.
  destruct (target_of env =? current_speed st) eqn:E; cbn [negb orb].
  - apply Z.eqb_eq in E.
    destruct (Z.abs (rpm - last_rpm st) >? 100) eqn:G.
    + split; [now split|]. intros H. exfalso. apply H. right.
      now apply Z.gtb_gt.
    + split; [|now split]. intros [H|H]; [contradiction|].
      apply Z.gtb_gt in H. congruence.
  - apply Z.eqb_neq in E. split; [now split|]. intros H. exfalso. apply H.
    now left.
Qed.

Lemma logging_gate_witness :
  exists st1,
    snd (steady_tick (clocked_get_rpm sample_arrivals) fallback_controller
           (env_at 45000)
           {| rpm_reader_of := sample_reader; current_speed := 2;
              last_rpm := 1450 |}) = Ok st1 /\
    (target_of (env_at 45000) <> 2 \/ Z.abs (1500 - 1450) > 100 ->
     statuses (fst (steady_tick (clocked_get_rpm sample_arrivals)
                      fallback_controller (env_at 45000)
                      {| rpm_reader_of := sample_reader; current_speed := 2;
                         last_rpm := 1450 |})) =
     [Print (L_status (temp_read (te_temp (env_at 45000)))
               (target_of (env_at 45000)) 1500)] /\
     last_rpm st1 = 1500) /\
    (~ (target_of (env_at 45000) <> 2 \/ Z.abs (1500 - 1450) > 100) ->
     statuses (fst (steady_tick (clocked_get_rpm sample_arrivals)
                      fallback_controller (env_at 45000)
                      {| rpm_reader_of := sample_reader; current_speed := 2;
                         last_rpm := 1450 |})) = [] /\
     last_rpm st1 = 1450).
Proof.
  apply (logging_gate _ (clocked_get_rpm sample_arrivals) fallback_controller
           (env_at 45000)
           {| rpm_reader_of := sample_reader; current_speed := 2;
              last_rpm := 1450 |}
           (RPMReader_init 3
            , 1%nat) 1500).
  - reflexivity.
  - reflexivity.
Defined.

(** C10: on the first tick of the steady loop the status line is printed
    and [set_speed] writes, whatever the temperature read: the applied
    level starts at -1, which the policy never returns. *)
Theorem first_tick_acts (R : Type) (get_rpm_of : R -> R * result Z)
  (controller : FanController) (env : tick_env) (rpm_reader rd : R)
  (rpm : Z) :
  period controller = 40000 ->
  get_rpm_of rpm_reader = (rd, Ok rpm) ->
  current_speed (loop_entry rpm_reader) = -1 /\
  target_of env <> -1 /\
  is_ok (snd (steady_tick get_rpm_of controller env
                (loop_entry rpm_reader))) = true /\
  actuations (fst (steady_tick get_rpm_of controller env
                     (loop_entry rpm_reader))) =
  [actuation_write controller (target_of env)] /\
  statuses (fst (steady_tick get_rpm_of controller env
                   (loop_entry rpm_reader))) =
  [Print (L_status (temp_read (te_temp env)) (target_of env) rpm)].
Proof.
  intros shipped Hget.
  assert (target_of env <> -1) as Hne.
  { unfold target_of.
    destruct (get_target_speed_range (temp_read (te_temp env)))
      as [H|[H|[H|H]]]; rewrite H; discriminate. }
  split; [reflexivity|]. split; [exact Hne|].
  pose proof (tick_actuations R get_rpm_of controller shipped env
                (loop_entry rpm_reader) rd rpm Hget) as Hact.
  pose proof (tick_statuses R get_rpm_of controller shipped env
                (loop_entry rpm_reader) rd rpm Hget) as Hst.
  destruct (tick_next R get_rpm_of controller shipped env
              (loop_entry rpm_reader) rd rpm Hget) as (st1 & Hst1 & _).
  cbn [current_speed loop_entry] in Hact, Hst.
  apply Z.eqb_neq in Hne. rewrite Hne in Hact, Hst.
  rewrite Hst1. now repeat split.
Qed.

Lemma first_tick_acts_witness :
  current_speed (loop_entry sample_reader) = -1 /\
  target_of env_failed <> -1 /\
  is_ok (snd (steady_tick (clocked_get_rpm sample_arrivals) pwm_controller
                env_failed (loop_entry sample_reader))) = true /\
  actuations (fst (steady_tick (clocked_get_rpm sample_arrivals)
                     pwm_controller env_failed (loop_entry sample_reader))) =
  [actuation_write pwm_controller (target_of env_failed)] /\
  statuses (fst (steady_tick (clocked_get_rpm sample_arrivals)
                   pwm_controller env_failed (loop_entry sample_reader))) =
  [Print (L_status (temp_read (te_temp env_failed)) (target_of env_failed)
            1500)].
Proof.
  apply (first_tick_acts _ (clocked_get_rpm sample_arrivals) pwm_controller
           env_failed sample_reader (RPMReader_init 3, 1%nat) 1500).
  - reflexivity.
  - reflexivity.
Defined.

(** ** read_temp *)

(** C6: when the acquisition fails [read_temp] prints and returns 75.0
    instead of raising; [read_temp] never raises; 75.0 maps to level 4; and
    a tick whose acquisition fails completes with level 4 applied. *)
Theorem read_temp_fail_safe (e : exn) :
  read_temp (Raise e) = ([Print (L_temp_error e)], Ok 75.0%float) /\
  (forall raw, is_ok (snd (read_temp raw)) = true) /\
  get_target_speed 75.0 = 4 /\
  (forall (R : Type) (get_rpm_of : R -> R * result Z) controller env st rd rpm,
     period controller = 40000 ->
     te_temp env = Raise e ->
     get_rpm_of (rpm_reader_of st) = (rd, Ok rpm) ->
     exists st1,
       snd (steady_tick get_rpm_of controller env st) = Ok st1 /\
       current_speed st1 = 4).
Proof.
  split; [reflexivity|]. split; [|split; [reflexivity|]].
  - intros raw. now rewrite read_temp_returns.
  - intros R get_rpm_of controller env st rd rpm shipped Hraw Hget.
    destruct (tick_next R get_rpm_of controller shipped env st rd rpm Hget)
      as (st1 & Hst1 & _ & Hcs & _).
    exists st1. split; [exact Hst1|]. rewrite Hcs. unfold target_of.
    now rewrite Hraw.
Qed.

Lemma read_temp_fail_safe_witness :
  exists st1,
    snd (steady_tick (clocked_get_rpm sample_arrivals) fallback_controller
           env_failed (loop_entry sample_reader)) = Ok st1 /\
    current_speed st1 = 4.
Proof.
  apply (proj2 (proj2 (proj2 (read_temp_fail_safe OSError)))
           _ (clocked_get_rpm sample_arrivals) fallback_controller env_failed
           (loop_entry sample_reader) (RPMReader_init 3, 1%nat) 1500);
    reflexivity.
Defined.

(** ** Path selection *)

Lemma bindM_events {A B : Type} (P : event -> Prop) (m : M A)
  (k : A -> M B) :
  Forall P (fst m) ->
  (forall a, snd m = Ok a -> Forall P (fst (k a))) ->
  Forall P (fst (bindM m k)).
Proof.
  destruct m as [ev [a|e]]; cbn; intros Hm Hk; [|exact Hm].
  specialize (Hk a eq_refl). destruct (k a) as [ev' r]. cbn in *.
  apply Forall_app. now split.
Qed.

Lemma try_except_events {A : Type} (P : event -> Prop) (body : M A)
  (handler : exn -> M A) :
  Forall P (fst body) ->
  (forall e, Forall P (fst (handler e))) ->
  Forall P (fst (try_except body handler)).
Proof.
  destruct body as [ev [a|e]]; cbn; intros Hb Hh; [exact Hb|].
  specialize (Hh e). destruct (handler e) as [ev' r]. cbn in *.
  apply Forall_app. now split.
Qed.

Lemma unbind_links_not_duty (entries : list driver_entry) :
  Forall not_duty (fst (unbind_links entries)).
Proof.
  induction entries as [|d rest IH]; [constructor|].
  cbn [unbind_links]. apply bindM_events; [|intros _ _; exact IH].
  destruct (is_link d); repeat constructor.
Qed.

Lemma release_kernel_driver_returns
  (driver : option (result (list driver_entry))) :
  snd (release_kernel_driver driver) = Ok tt /\
  Forall not_duty (fst (release_kernel_driver driver)).
Proof.
  destruct driver as [[entries|e]|]; cbn.
  - pose proof (unbind_links_not_duty entries) as H.
    destruct (unbind_links entries) as [ev [[]|e]]; cbn in *.
    + now split.
    + split; [reflexivity|]. apply Forall_app. split; [exact H|].
      repeat constructor.
  - split; repeat constructor.
  - split; repeat constructor.
Qed.

Lemma find_pwm_chip_returns (chips : list chip_obs) :
  is_ok (snd (find_pwm_chip chips)) = true /\
  Forall not_duty (fst (find_pwm_chip chips)).
Proof.
  induction chips as [|c rest IH]; cbn; [split; repeat constructor|].
  destruct (of_node c) as [[real_path|]|e]; try exact IH.
  destruct (contains PWM_NODE_ADDR real_path); [|exact IH].
  split; repeat constructor.
Qed.

Lemma set_speed_fallback (c : FanController) (level : Z) (io : result unit) :
  pwm_path c = None ->
  set_speed c level io =
  (Write F_cooling_fallback (str level) :: write_failure L_cooling_error io,
   Ok tt).
Proof.
  intros H. unfold set_speed, pwm_chip. rewrite H.
  destruct io as [[]|e]; reflexivity.
Qed.

(** The constructor fixes the period at 40000 and keeps what
    [find_pwm_chip] returned. *)
Lemma FanController_init_shipped
  (driver : option (result (list driver_entry))) (chips : list chip_obs)
  (io : init_io) (evs : list event) (c : FanController) :
  FanController_init driver chips io = (evs, Ok c) ->
  period c = 40000 /\ snd (find_pwm_chip chips) = Ok (pwm_path c).
Proof.
  unfold FanController_init.
  destruct (release_kernel_driver_returns driver) as [Hrel _].
  destruct (release_kernel_driver driver) as [ev1 r1]. cbn in Hrel.
  subst r1. cbn [bindM].
  destruct (find_pwm_chip chips) as [ev2 [found|e]]; cbn [bindM snd];
    [|discriminate].
  destruct (init_pwm {| pwm_path := found; period := 40000 |} io)
    as [ev3 [[]|e]]; cbn; [|discriminate].
  intros [= _ <-]. now split.
Qed.

Section FallbackRuns.

Variable R : Type.
Variable get_rpm_of : R -> R * result Z.
Variable controller : FanController.
Hypothesis no_chip : pwm_path controller = None.

Lemma set_speed_not_duty (level : Z) (io : result unit) :
  Forall not_duty (fst (set_speed controller level io)).
Proof.
  rewrite (set_speed_fallback controller level io no_chip). cbn.
  destruct io as [[]|e]; repeat constructor.
Qed.

Lemma steady_tick_not_duty (env : tick_env) (st : loop_state R) :
  Forall not_duty (fst (steady_tick get_rpm_of controller env st)).
Proof.
  unfold steady_tick.
  apply bindM_events.
  { apply Forall_forall. intros e He.
    destruct e as [l|[] s|s]; try reflexivity.
    apply set_policy_quiet in He. destruct He; discriminate. }
  intros _ _. apply bindM_events.
  { apply Forall_forall. intros e He.
    destruct e as [l|[] s|s]; try reflexivity.
    apply read_temp_quiet in He. destruct He; discriminate. }
  intros temp _.
  destruct (get_rpm_of (rpm_reader_of st)) as [rd res].
  apply bindM_events; [constructor|]. intros rpm _.
  apply bindM_events; [|intros; repeat constructor].
  destruct (negb _ || _); [|constructor].
  apply bindM_events; [repeat constructor|]. intros _ _.
  apply bindM_events; [|intros; constructor].
  destruct (negb _); [|constructor].
  apply bindM_events; [apply set_speed_not_duty|intros; constructor].
Qed.

Lemma steady_loop_not_duty (envs : list tick_env) (st : loop_state R) :
  Forall not_duty (fst (steady_loop get_rpm_of controller envs st)).
Proof.
  revert st. induction envs as [|env rest IH]; intros st; [constructor|].
  cbn [steady_loop]. apply bindM_events; [apply steady_tick_not_duty|].
  intros st1 _. apply IH.
Qed.

Lemma sample_dwell_not_duty (n : nat) (level : Z) (rd : option R) :
  Forall not_duty (fst (sample_dwell get_rpm_of n level rd)).
Proof.
  revert rd. induction n as [|n IH]; intros rd; [constructor|].
  cbn [sample_dwell]. apply bindM_events; [repeat constructor|].
  intros _ _. apply bindM_events; [|intros; apply IH].
  destruct rd as [r|]; [|constructor].
  destruct (get_rpm_of r) as [r' res].
  apply bindM_events; [constructor|]. intros rpm _.
  apply bindM_events; repeat constructor.
Qed.

Lemma run_self_test_not_duty (rd : option R) (ios : Z -> result unit) :
  Forall not_duty (fst (run_self_test get_rpm_of controller rd ios)).
Proof.
  unfold run_self_test. apply bindM_events; [repeat constructor|].
  intros _ _. apply bindM_events; [|intros; apply bindM_events;
                                      repeat constructor].
  generalize (range 5). intros levels. revert rd.
  induction levels as [|l rest IH]; intros rd; [constructor|].
  cbn [self_test_levels]. apply bindM_events; [repeat constructor|].
  intros _ _. apply bindM_events; [apply set_speed_not_duty|].
  intros _ _. apply bindM_events; [apply sample_dwell_not_duty|].
  intros; apply IH.
Qed.

End FallbackRuns.

(** C7: when [find_pwm_chip] returns [None] the controller is built with
    no PWM path and without a duty-cycle write; every later [set_speed]
    writes the level to the fallback cooling-device file; and neither the
    self-test nor the steady loop, which keep the controller they are given,
    ever writes a duty cycle. *)
Theorem fallback_when_no_chip
  (driver : option (result (list driver_entry))) (chips : list chip_obs)
  (io : init_io) :
  snd (find_pwm_chip chips) = Ok None ->
  exists evs controller,
    FanController_init driver chips io = (evs, Ok controller) /\
    pwm_path controller = None /\
    Forall not_duty evs /\
    (forall level io',
       set_speed controller level io' =
       (Write F_cooling_fallback (str level)
          :: write_failure L_cooling_error io', Ok tt)) /\
    (forall (R : Type) (get_rpm_of : R -> R * result Z) rd ios,
       Forall not_duty (fst (run_self_test get_rpm_of controller rd ios))) /\
    (forall (R : Type) (get_rpm_of : R -> R * result Z) envs st,
       Forall not_duty (fst (steady_loop get_rpm_of controller envs st))).
Proof.
  intros Hnone.
  destruct (release_kernel_driver_returns driver) as [Hrel Hrel'].
  destruct (find_pwm_chip_returns chips) as [_ Hfind'].
  unfold FanController_init.
  destruct (release_kernel_driver driver) as [ev1 r1]. cbn in Hrel, Hrel'.
  subst r1.
  destruct (find_pwm_chip chips) as [ev2 r2]. cbn in Hnone, Hfind'.
  subst r2. cbn.
  exists (ev1 ++ ev2 ++ []), {| pwm_path := None; period := 40000 |}.
  split; [reflexivity|]. split; [reflexivity|]. split.
  { rewrite app_nil_r. apply Forall_app. now split. }
  split; [|split].
  - intros level io'. now apply set_speed_fallback.
  - intros. now apply run_self_test_not_duty.
  - intros. now apply steady_loop_not_duty.
Qed.

Lemma fallback_when_no_chip_witness :
  exists evs controller,
    FanController_init None sample_chips sample_init_io
    = (evs, Ok controller) /\
    pwm_path controller = None /\
    Forall not_duty evs /\
    (forall level io',
       set_speed controller level io' =
       (Write F_cooling_fallback (str level)
          :: write_failure L_cooling_error io', Ok tt)) /\
    (forall (R : Type) (get_rpm_of : R -> R * result Z) rd ios,
       Forall not_duty (fst (run_self_test get_rpm_of controller rd ios))) /\
    (forall (R : Type) (get_rpm_of : R -> R * result Z) envs st,
       Forall not_duty (fst (steady_loop get_rpm_of controller envs st))).
Proof.
  apply (fallback_when_no_chip None sample_chips sample_init_io).
  reflexivity.
Defined.

(** ** Self-test *)

Section SelfTestFacts.

Variable R : Type.
Variable get_rpm_of : R -> R * result Z.
Variable controller : FanController.
Hypothesis shipped : period controller = 40000.

Lemma sample_dwell_spec (n : nat) (level : Z) (r : R) :
  calls_ok get_rpm_of n r = true ->
  sample_dwell get_rpm_of n level (Some r) =
  (dwell_trace level (fst (draw get_rpm_of n r)),
   Ok (Some (snd (draw get_rpm_of n r)))) /\
  List.length (fst (draw get_rpm_of n r)) = n.
Proof.
  revert r. induction n as [|n IH]; intros r Hok; [now split|].
  cbn [calls_ok] in Hok. cbn [sample_dwell draw].
  destruct (get_rpm_of r) as [r' [v|e]]; [|discriminate].
  cbn [is_ok andb] in Hok. destruct (IH r' Hok) as [IH1 IH2].
  cbn. rewrite IH1.
  destruct (draw get_rpm_of n r') as [vs r'']. cbn in *.
  split; [reflexivity|]. now rewrite IH2.
Qed.

Lemma calls_ok_split (n m : nat) (r : R) :
  calls_ok get_rpm_of (n + m) r = true ->
  calls_ok get_rpm_of n r = true /\
  calls_ok get_rpm_of m (snd (draw get_rpm_of n r)) = true.
Proof.
  revert r. induction n as [|n IH]; intros r H; [now split|].
  cbn [Nat.add calls_ok draw] in *.
  destruct (get_rpm_of r) as [r' [v|e]]; [|discriminate].
  cbn [is_ok andb] in *. destruct (IH r' H) as [H1 H2].
  split; [exact H1|].
  now destruct (draw get_rpm_of n r') as [vs r''].
Qed.

Lemma draw_split (n m : nat) (r : R) :
  calls_ok get_rpm_of n r = true ->
  fst (draw get_rpm_of (n + m) r) =
  fst (draw get_rpm_of n r) ++ fst (draw get_rpm_of m (snd (draw get_rpm_of n r))).
Proof.
  revert r. induction n as [|n IH]; intros r H; [reflexivity|].
  cbn [Nat.add calls_ok draw] in *.
  destruct (get_rpm_of r) as [r' [v|e]]; [|discriminate].
  cbn [is_ok andb] in H. specialize (IH r' H).
  destruct (draw get_rpm_of (n + m) r') as [vs1 q1].
  destruct (draw get_rpm_of n r') as [vs2 q2].
  cbn [fst snd] in *. now rewrite IH.
Qed.

Lemma self_test_levels_spec (ios : Z -> result unit) (levels : list Z)
  (r : R) :
  Forall (fun l => 0 <= l <= 4) levels ->
  calls_ok get_rpm_of (5 * List.length levels) r = true ->
  fst (self_test_levels get_rpm_of controller levels ios (Some r)) =
  levels_trace get_rpm_of controller ios levels r /\
  is_ok (snd (self_test_levels get_rpm_of controller levels ios (Some r)))
  = true.
Proof.
  revert r. induction levels as [|level rest IH]; intros r Hl Hok;
    [now split|].
  inversion Hl as [|? ? Hlevel Hrest]; subst.
  replace (5 * List.length (level :: rest))%nat
    with (5 + 5 * List.length rest)%nat in Hok by (cbn [List.length]; lia).
  apply calls_ok_split in Hok. destruct Hok as [Hok1 Hok2].
  destruct (sample_dwell_spec 5 level r Hok1) as [Hdwell _].
  destruct (IH _ Hrest Hok2) as [IH1 IH2].
  cbn [self_test_levels levels_trace].
  rewrite (set_speed_shipped controller level (ios level) shipped Hlevel).
  rewrite Hdwell. unfold print. cbn [bindM].
  destruct (self_test_levels get_rpm_of controller rest ios
              (Some (snd (draw get_rpm_of 5 r)))) as [evs res].
  cbn [fst snd] in *. subst evs. split; [|exact IH2].
  unfold level_block. cbn. now rewrite <- !app_assoc.
Qed.

End SelfTestFacts.

Lemma dwell_trace_quiet (level : Z) (vals : list Z) :
  actuations (dwell_trace level vals) = [].
Proof. induction vals as [|v vs IH]; [reflexivity|exact IH]. Qed.

Lemma level_block_actuations (c : FanController) (ios : Z -> result unit)
  (level : Z) (vals : list Z) :
  actuations (level_block c ios level vals) = [actuation_write c level].
Proof.
  unfold level_block, actuations. cbn [filter is_actuation].
  rewrite (proj1 (is_actuation_write c level)). f_equal.
  rewrite filter_app.
  fold (actuations (failure_line c (ios level))).
  fold (actuations (dwell_trace level vals)).
  now rewrite (proj1 (failure_line_quiet _ _)), dwell_trace_quiet.
Qed.

Lemma level_block_slept (c : FanController) (ios : Z -> result unit)
  (level : Z) (vals : list Z) :
  List.length vals = 5%nat ->
  slept (level_block c ios level vals) = 10%float /\
  List.length (filter (fun e => match e with Sleep _ => true | _ => false end)
                 (level_block c ios level vals)) = 5%nat.
Proof.
  intros H.
  destruct vals as [|a [|b [|d [|e [|f [|g rest]]]]]]; try discriminate.
  unfold level_block, actuation_write, failure_line.
  destruct (pwm_chip c), (ios level) as [[]|x]; split; reflexivity.
Qed.

(** C9: the self-test sets the five levels 0, 1, 2, 3, 4 in this order,
    one write each; after each write it dwells five times two seconds, ten
    seconds in all, and after each two-second sleep it samples the reader
    and prints the value. *)
Theorem self_test_profile (R : Type) (get_rpm_of : R -> R * result Z)
  (controller : FanController) (r : R) (ios : Z -> result unit) :
  period controller = 40000 ->
  calls_ok get_rpm_of 25 r = true ->
  exists v0 v1 v2 v3 v4 : list Z,
    fst (run_self_test get_rpm_of controller (Some r) ios) =
    Print L_selftest_start
      :: level_block controller ios 0 v0 ++ level_block controller ios 1 v1
      ++ level_block controller ios 2 v2 ++ level_block controller ios 3 v3
      ++ level_block controller ios 4 v4 ++ [Print L_selftest_done] /\
    is_ok (snd (run_self_test get_rpm_of controller (Some r) ios)) = true /\
    actuations (fst (run_self_test get_rpm_of controller (Some r) ios)) =
    map (actuation_write controller) [0; 1; 2; 3; 4] /\
    v0 ++ v1 ++ v2 ++ v3 ++ v4 = fst (draw get_rpm_of 25 r) /\
    Forall (fun lv => List.length (snd lv) = 5%nat /\
                      slept (level_block controller ios (fst lv) (snd lv))
                      = 10%float)
           [(0, v0); (1, v1); (2, v2); (3, v3); (4, v4)].
Proof.
  intros shipped Hok.
  assert (Forall (fun l => 0 <= l <= 4) (range 5)) as Hrange
    by (repeat constructor; cbn; lia).
  destruct (self_test_levels_spec R get_rpm_of controller shipped ios
              (range 5) r Hrange Hok) as [Hev Hres].
  pose (r1 := snd (draw get_rpm_of 5 r)).
  pose (r2 := snd (draw get_rpm_of 5 r1)).
  pose (r3 := snd (draw get_rpm_of 5 r2)).
  pose (r4 := snd (draw get_rpm_of 5 r3)).
  change 25%nat with (5 + (5 + (5 + (5 + 5))))%nat in Hok.
  destruct (calls_ok_split R get_rpm_of _ _ _ Hok) as [H0 Hok1].
  destruct (calls_ok_split R get_rpm_of _ _ _ Hok1) as [H1 Hok2].
  destruct (calls_ok_split R get_rpm_of _ _ _ Hok2) as [H2 Hok3].
  destruct (calls_ok_split R get_rpm_of _ _ _ Hok3) as [H3 H4].
  fold r1 in H1, Hok2. fold r2 in H2, Hok3. fold r3 in H3, H4.
  fold r4 in H4.
  exists (fst (draw get_rpm_of 5 r)), (fst (draw get_rpm_of 5 r1)),
    (fst (draw get_rpm_of 5 r2)), (fst (draw get_rpm_of 5 r3)),
    (fst (draw get_rpm_of 5 r4)).
  assert (fst (run_self_test get_rpm_of controller (Some r) ios) =
          Print L_selftest_start
            :: levels_trace get_rpm_of controller ios (range 5) r
            ++ [Print L_selftest_done] /\
          is_ok (snd (run_self_test get_rpm_of controller (Some r) ios))
          = true) as [Hrun Hret].
  { unfold run_self_test.
    destruct (self_test_levels get_rpm_of controller (range 5) ios (Some r))
      as [evs [rd|e]]; cbn in Hev, Hres |- *; [|discriminate].
    now subst evs. }
  assert (levels_trace get_rpm_of controller ios (range 5) r =
          level_block controller ios 0 (fst (draw get_rpm_of 5 r))
            ++ level_block controller ios 1 (fst (draw get_rpm_of 5 r1))
            ++ level_block controller ios 2 (fst (draw get_rpm_of 5 r2))
            ++ level_block controller ios 3 (fst (draw get_rpm_of 5 r3))
            ++ level_block controller ios 4 (fst (draw get_rpm_of 5 r4)))
    as Htrace.
  { cbn [range map seq levels_trace Z.of_nat Pos.of_succ_nat Pos.succ].
    now rewrite app_nil_r. }
  rewrite Hrun, Htrace. split; [now rewrite <- !app_assoc|].
  split; [exact Hret|]. split.
  { change (Print L_selftest_start :: ?l) with ([Print L_selftest_start] ++ l).
    rewrite !actuations_app, !level_block_actuations. reflexivity. }
  pose proof (proj2 (sample_dwell_spec R get_rpm_of 5 0 r H0)) as L0.
  pose proof (proj2 (sample_dwell_spec R get_rpm_of 5 0 r1 H1)) as L1.
  pose proof (proj2 (sample_dwell_spec R get_rpm_of 5 0 r2 H2)) as L2.
  pose proof (proj2 (sample_dwell_spec R get_rpm_of 5 0 r3 H3)) as L3.
  pose proof (proj2 (sample_dwell_spec R get_rpm_of 5 0 r4 H4)) as L4.
  split.
  - change 25%nat with (5 + (5 + (5 + (5 + 5))))%nat.
    rewrite (draw_split R get_rpm_of _ _ r H0). fold r1.
    rewrite (draw_split R get_rpm_of _ _ r1 H1). fold r2.
    rewrite (draw_split R get_rpm_of _ _ r2 H2). fold r3.
    rewrite (draw_split R get_rpm_of _ _ r3 H3). fold r4.
    reflexivity.
  - repeat constructor; cbn [fst snd]; try assumption;
      now apply level_block_slept.
Qed.

Lemma self_test_profile_witness :
  exists v0 v1 v2 v3 v4 : list Z,
    fst (run_self_test (clocked_get_rpm selftest_arrivals) pwm_controller
           (Some sample_reader) (fun _ => Ok tt)) =
    Print L_selftest_start
      :: level_block pwm_controller (fun _ => Ok tt) 0 v0
      ++ level_block pwm_controller (fun _ => Ok tt) 1 v1
      ++ level_block pwm_controller (fun _ => Ok tt) 2 v2
      ++ level_block pwm_controller (fun _ => Ok tt) 3 v3
      ++ level_block pwm_controller (fun _ => Ok tt) 4 v4
      ++ [Print L_selftest_done] /\
    is_ok (snd (run_self_test (clocked_get_rpm selftest_arrivals)
                  pwm_controller (Some sample_reader) (fun _ => Ok tt)))
    = true /\
    actuations (fst (run_self_test (clocked_get_rpm selftest_arrivals)
                       pwm_controller (Some sample_reader)
                       (fun _ => Ok tt))) =
    map (actuation_write pwm_controller) [0; 1; 2; 3; 4] /\
    v0 ++ v1 ++ v2 ++ v3 ++ v4 =
    fst (draw (clocked_get_rpm selftest_arrivals) 25 sample_reader) /\
    Forall (fun lv => List.length (snd lv) = 5%nat /\
                      slept (level_block pwm_controller (fun _ => Ok tt)
                               (fst lv) (snd lv)) = 10%float)
           [(0, v0); (1, v1); (2, v2); (3, v3); (4, v4)].
Proof.
  apply (self_test_profile _ (clocked_get_rpm selftest_arrivals)
           pwm_controller sample_reader (fun _ => Ok tt)).
  - reflexivity.
  - vm_compute. reflexivity.
Defined.

(** ** The lock *)

Module ThreadFacts.

Import Threads.

Ltac step_cases c a H :=
  destruct c as [lk ob mp rp]; destruct a as [sys|now];
  [ destruct mp | destruct rp ];
  cbn [step step_monitor step_reader mon rdr lock obj with_mon with_rdr] in H;
  try discriminate H;
  try (destruct sys as [[]|?]);
  try (destruct lk; try discriminate H);
  try (destruct (running ob));
  injection H as <- <-.

Lemma inv_start (t : float) : inv (start t) /\ dt_ok (start t).
Proof. repeat split. Qed.

Lemma inv_step (a : action) (c c' : config) (o : obs) :
  inv c -> step a c = Some (o, c') -> inv c'.
Proof.
  intros [Hl [Hm Hr]] H. unfold inv, lock_ok, locals_ok in *.
  step_cases c a H; cbn in *;
    try destruct rp; try destruct mp; cbn in *;
    try discriminate; try contradiction; try tauto;
    intuition (try congruence; try discriminate).
Qed.

Lemma dt_ok_step (a : action) (c c' : config) (o : obs) :
  inv c -> dt_ok c -> step a c = Some (o, c') -> dt_ok c'.
Proof.
  intros [Hl [Hm Hr]] Hd H. unfold inv, lock_ok, locals_ok, dt_ok in *.
  step_cases c a H; cbn in *;
    try destruct rp; try destruct mp; cbn in *;
    try discriminate; try contradiction; try tauto; try congruence.
Qed.

(** A step hands every pulse on: what was pending, plus what the step
    counts, is what the step captures plus what is pending after it. *)
Lemma account_step (a : action) (c c' : config) (o : obs) :
  inv c -> step a c = Some (o, c') ->
  pending c + counted [o] = consumed [o] + pending c'.
Proof.
  intros [Hl [Hm Hr]] H. unfold inv, lock_ok, locals_ok, pending in *.
  step_cases c a H; cbn in *;
    try destruct rp; try destruct mp; cbn in *;
    try discriminate; try contradiction; try lia;
    try (destruct Hr; lia).
Qed.

Lemma counted_app (a b : list obs) : counted (a ++ b) = counted a + counted b.
Proof.
  induction a as [|x a IH]; [reflexivity|].
  destruct x; cbn [app counted]; rewrite IH; lia.
Qed.

Lemma consumed_app (a b : list obs) :
  consumed (a ++ b) = consumed a + consumed b.
Proof.
  induction a as [|x a IH]; [reflexivity|].
  destruct x; cbn [app consumed]; rewrite IH; lia.
Qed.

Lemma consumed_none (os : list obs) : captures os = [] -> consumed os = 0.
Proof.
  induction os as [|x os IH]; [reflexivity|].
  destruct x; cbn; intros H; try discriminate; auto.
Qed.

(** Invariants and the account along a run. *)
Lemma run_account (sched : list action) (c c' : config) (os : list obs) :
  inv c -> dt_ok c -> run sched c = (os, c') ->
  inv c' /\ dt_ok c' /\ pending c + counted os = consumed os + pending c'.
Proof.
  revert c os. induction sched as [|a rest IH]; intros c os Hi Hd H.
  - injection H as <- <-. cbn [counted consumed].
    split; [assumption|split; [assumption|lia]].
  - cbn [run] in H. destruct (step a c) as [[o c1]|] eqn:Hs.
    + destruct (run rest c1) as [os1 c2] eqn:Hr. injection H as <- <-.
      destruct (IH c1 os1 (inv_step _ _ _ _ Hi Hs)
                  (dt_ok_step _ _ _ _ Hi Hd Hs) Hr) as (Hi' & Hd' & Hacc).
      split; [assumption|split; [assumption|]].
      pose proof (account_step _ _ _ _ Hi Hs) as H1.
      change (o :: os1) with ([o] ++ os1).
      rewrite counted_app, consumed_app. lia.
    + now apply IH.
Qed.

(** A run is cut at the step that makes a given observation. *)
Lemma run_cut (sched : list action) (c c' : config) (os1 os2 : list obs)
  (o : obs) :
  run sched c = (os1 ++ o :: os2, c') ->
  exists s1 a s2 c0 c1,
    sched = s1 ++ a :: s2 /\ run s1 c = (os1, c0) /\
    step a c0 = Some (o, c1) /\ run s2 c1 = (os2, c').
Proof.
  revert c os1. induction sched as [|a rest IH]; intros c os1 H.
  - cbn in H. destruct os1; discriminate.
  - cbn [run] in H. destruct (step a c) as [[o1 c1]|] eqn:Hs.
    + destruct (run rest c1) as [osr c2] eqn:Hr. injection H as Ho <-.
      destruct os1 as [|x os1]; cbn [app] in Ho; injection Ho as -> ->.
      * exists [], a, rest, c, c1. now repeat split.
      * destruct (IH c1 os1 Hr) as (s1 & a' & s2 & c0 & c3 & -> & R1 & S & R2).
        exists (a :: s1), a', s2, c0, c3. repeat split; try assumption.
        cbn [run]. now rewrite Hs, R1.
    + destruct (IH c os1 H) as (s1 & a' & s2 & c0 & c3 & -> & R1 & S & R2).
      exists (a :: s1), a', s2, c0, c3. repeat split; try assumption.
      cbn [run]. now rewrite Hs.
Qed.

(** The capturing step. *)
Lemma capture_step (a : action) (c c' : config) (n : Z) (t : float) :
  dt_ok c -> step a c = Some (Captured n t, c') ->
  rdr c = R_count t (PrimFloat.sub t (last_time (obj c))) /\
  rdr c' = R_reset_count t (PrimFloat.sub t (last_time (obj c))) n.
Proof.
  intros Hd H. unfold dt_ok in Hd.
  destruct c as [lk ob mp rp]; destruct a as [sys|now];
    [ destruct mp | destruct rp ];
    cbn [step step_monitor step_reader mon rdr lock obj with_mon with_rdr]
      in H;
    try discriminate H;
    try (destruct sys as [[]|?]; discriminate H);
    try (destruct lk; discriminate H).
  injection H as <- <- <-. cbn in *. now subst.
Qed.

Lemma stamped_step (t : float) (a : action) (c c' : config) (o : obs) :
  stamped t c -> step a c = Some (o, c') -> is_capture o = false ->
  stamped t c'.
Proof.
  intros Hs H Ho. unfold stamped in *.
  step_cases c a H; cbn in *; try discriminate; try assumption;
    try destruct rp; cbn in *; try assumption; try reflexivity.
Qed.

Lemma captures_none_step (o : obs) (os : list obs) :
  captures (o :: os) = [] -> is_capture o = false /\ captures os = [].
Proof. destruct o; cbn; intros H; try discriminate; now split. Qed.

Lemma stamped_run (t : float) (sched : list action) (c c' : config)
  (os : list obs) :
  stamped t c -> run sched c = (os, c') -> captures os = [] -> stamped t c'.
Proof.
  revert c os. induction sched as [|a rest IH]; intros c os Hs H Hc.
  - now injection H as <- <-.
  - cbn [run] in H. destruct (step a c) as [[o c1]|] eqn:Hstep.
    + destruct (run rest c1) as [os1 c2] eqn:Hr. injection H as <- <-.
      apply captures_none_step in Hc. destruct Hc as [Ho Hc].
      exact (IH c1 os1 (stamped_step _ _ _ _ _ Hs Hstep Ho) Hr Hc).
    + exact (IH c os Hs H Hc).
Qed.

(** Until it returns, a call keeps the count and the elapsed time it
    captured, and it returns the rate computed from them. *)
Lemma in_flight_step (n : Z) (dt : float) (a : action) (c c' : config)
  (o : obs) :
  in_flight n dt c -> step a c = Some (o, c') ->
  match o with
  | Returned res => res = rpm_value n dt
  | _ => in_flight n dt c'
  end.
Proof.
  intros Hf H. unfold in_flight in *.
  step_cases c a H; cbn in *; try contradiction; try assumption;
    try destruct rp; cbn in *; try contradiction; try assumption.
  all: destruct Hf as [-> ->]; reflexivity.
Qed.

Lemma in_flight_run (n : Z) (dt : float) (sched : list action)
  (c c' : config) (os1 os2 : list obs) (res : result Z) :
  in_flight n dt c -> run sched c = (os1 ++ Returned res :: os2, c') ->
  returns os1 = [] -> res = rpm_value n dt.
Proof.
  revert c os1. induction sched as [|a rest IH]; intros c os1 Hf H Hr.
  - cbn in H. destruct os1; discriminate.
  - cbn [run] in H. destruct (step a c) as [[o c1]|] eqn:Hs.
    + destruct (run rest c1) as [osr c2] eqn:Hrun. injection H as Ho <-.
      pose proof (in_flight_step _ _ _ _ _ _ Hf Hs) as Hnext.
      destruct os1 as [|x os1]; cbn [app] in Ho; injection Ho as -> ->.
      * exact Hnext.
      * destruct x; cbn in Hr; try discriminate;
          exact (IH c1 os1 Hnext Hrun Hr).
    + exact (IH c os1 Hf H Hr).
Qed.


(** C1: [get_rpm] reads and resets exactly once.  In every interleaving of
    the two threads, the count captured by a call is the number of pulses
    the monitor counted since the previous call captured; that call returns
    the rate of this count over the time between the two captures; no pulse
    is lost or counted twice over the whole run; and once the call has done
    its resets the timestamp is its clock reading and the counter holds only
    the pulses counted after the capture; where the call releases the lock
    the counter is 0. *)
Theorem read_and_reset_exactly_once (t0 : float) (sched : list action)
  (pre mid post : list obs) (n1 n2 : Z) (t1 t2 : float) (c : config) :
  run sched (start t0) =
  (pre ++ Captured n1 t1 :: mid ++ Captured n2 t2 :: post, c) ->
  captures mid = [] ->
  n2 = counted mid /\
  counted (pre ++ Captured n1 t1 :: mid ++ Captured n2 t2 :: post) =
  consumed (pre ++ Captured n1 t1 :: mid ++ Captured n2 t2 :: post)
  + pending c /\
  (forall res post1 post2,
     post = post1 ++ Returned res :: post2 -> returns post1 = [] ->
     res = rpm_value (counted mid) (PrimFloat.sub t2 t1)) /\
  (captures post = [] -> resetting (rdr c) = false ->
   pulse_count (obj c) = counted post /\ last_time (obj c) = t2) /\
  (forall ct dt k,
     captures post = [] -> rdr c = R_release ct dt k ->
     pulse_count (obj c) = 0 /\ last_time (obj c) = t2).
Proof.
  intros Hrun Hmid.
  destruct (inv_start t0) as [Hi0 Hd0].
  destruct (run_account _ _ _ _ Hi0 Hd0 Hrun) as (Hic & _ & Hall).
  destruct (run_cut _ _ _ _ _ _ Hrun)
    as (s1 & a1 & s2 & c0 & c1 & _ & R1 & S1 & R2).
  destruct (run_account _ _ _ _ Hi0 Hd0 R1) as (Hic0 & Hdc0 & _).
  pose proof (inv_step _ _ _ _ Hic0 S1) as Hic1.
  pose proof (dt_ok_step _ _ _ _ Hic0 Hdc0 S1) as Hdc1.
  destruct (capture_step _ _ _ _ _ Hdc0 S1) as [_ Hpc1].
  destruct (run_cut _ _ _ _ _ _ R2)
    as (s3 & a2 & s4 & c2 & c3 & _ & R3 & S2 & R4).
  destruct (run_account _ _ _ _ Hic1 Hdc1 R3) as (Hic2 & Hdc2 & Hacc).
  pose proof (inv_step _ _ _ _ Hic2 S2) as Hic3.
  pose proof (dt_ok_step _ _ _ _ Hic2 Hdc2 S2) as Hdc3.
  destruct (capture_step _ _ _ _ _ Hdc2 S2) as [Hpc2 Hpc3].
  pose proof (account_step _ _ _ _ Hic2 S2) as Hcap.
  assert (stamped t1 c2) as Hst2.
  { apply (stamped_run t1 s3 c1 c2 mid); try assumption.
    unfold stamped. now rewrite Hpc1. }
  unfold stamped in Hst2. rewrite Hpc2 in Hst2. rewrite Hst2 in Hpc3.
  assert (pending c1 = 0) as P1 by (unfold pending; now rewrite Hpc1).
  assert (pending c3 = 0) as P3 by (unfold pending; now rewrite Hpc3).
  rewrite (consumed_none _ Hmid) in Hacc. cbn [counted consumed] in Hcap.
  assert (n2 = counted mid) as Hn by lia.
  split; [exact Hn|]. split.
  { unfold start, pending in Hall. cbn in Hall. exact Hall. }
  assert (captures post = [] -> stamped t2 c) as Hstamp.
  { intros Hpost. apply (stamped_run t2 s4 c3 c post); try assumption.
    unfold stamped. now rewrite Hpc3. }
  split; [|split].
  - intros res post1 post2 -> Hret. rewrite <- Hn.
    apply (in_flight_run n2 (PrimFloat.sub t2 t1) s4 c3 c post1 post2 res);
      try assumption.
    unfold in_flight. now rewrite Hpc3.
  - intros Hpost Hdone.
    destruct (run_account _ _ _ _ Hic3 Hdc3 R4) as (_ & _ & Hacc4).
    rewrite (consumed_none _ Hpost) in Hacc4.
    assert (stamped t2 c) as Hst.
    { apply (stamped_run t2 s4 c3 c post); try assumption.
      unfold stamped. now rewrite Hpc3. }
    unfold stamped in Hst. unfold pending in Hacc4 at 2.
    destruct (rdr c); cbn in Hdone, Hacc4; try discriminate; split;
      try exact Hst; fold (pending c3) in Hacc4; lia.
  - intros ct dt k Hpost Hpc. specialize (Hstamp Hpost).
    destruct Hic as [_ [_ Hloc]]. unfold stamped in Hstamp.
    rewrite Hpc in Hloc, Hstamp. split; [tauto|exact Hstamp].
Qed.

Lemma read_and_reset_exactly_once_witness :
  2 = counted sample_mid /\
  counted (sample_pre ++ Captured 1 3 :: sample_mid
             ++ Captured 2 6 :: sample_post) =
  consumed (sample_pre ++ Captured 1 3 :: sample_mid
              ++ Captured 2 6 :: sample_post) + pending sample_final /\
  (forall res post1 post2,
     sample_post = post1 ++ Returned res :: post2 -> returns post1 = [] ->
     res = rpm_value (counted sample_mid) (PrimFloat.sub 6 3)) /\
  (captures sample_post = [] -> resetting (rdr sample_final) = false ->
   pulse_count (obj sample_final) = counted sample_post /\
   last_time (obj sample_final) = 6%float) /\
  (forall ct dt k,
     captures sample_post = [] -> rdr sample_final = R_release ct dt k ->
     pulse_count (obj sample_final) = 0 /\
     last_time (obj sample_final) = 6%float).
Proof.
  apply (read_and_reset_exactly_once 0 sample_sched sample_pre sample_mid
           sample_post 1 2 3 6 sample_final).
  - vm_compute. reflexivity.
  - reflexivity.
Defined.

End ThreadFacts.

(* ================================================================== *)
(** * Further properties *)

(** ** Hardware discovery and initialisation *)

(** X1: [find_pwm_chip] never raises and prints one line.  It returns the
    first chip of the list whose [of_node] real path contains the address,
    a chip whose link is missing or whose inspection raises being skipped;
    it returns [None] exactly when no chip of the list matches. *)
Theorem find_pwm_chip_first_match (chips : list chip_obs) :
  (exists before c after,
     chips = before ++ c :: after /\
     Forall (fun b => chip_matches b = false) before /\
     chip_matches c = true /\
     find_pwm_chip chips =
     ([Print (L_found_chip (chip_path c))], Ok (Some (chip_path c)))) \/
  (Forall (fun b => chip_matches b = false) chips /\
   find_pwm_chip chips = ([Print L_chip_not_found], Ok None)).
Proof.
  induction chips as [|c rest IH].
  - right. split; [constructor|reflexivity].
  - destruct (chip_matches c) eqn:Hc.
    + left. exists [], c, rest. split; [reflexivity|].
      split; [constructor|]. split; [exact Hc|].
      unfold chip_matches in Hc. cbn [find_pwm_chip].
      destruct (of_node c) as [[real_path|]|e]; try discriminate.
      now rewrite Hc.
    + assert (find_pwm_chip (c :: rest) = find_pwm_chip rest) as Hskip.
      { unfold chip_matches in Hc. cbn [find_pwm_chip].
        destruct (of_node c) as [[real_path|]|e]; try reflexivity.
        now rewrite Hc. }
      rewrite Hskip.
      destruct IH as [(before & d & after & -> & Hb & Hd & Hf)|[Hall Hf]].
      * left. exists (c :: before), d, after.
        split; [reflexivity|]. split; [now constructor|]. now split.
      * right. split; [now constructor|exact Hf].
Qed.

(** X2: [release_kernel_driver] never raises.  It writes to [unbind] the
    names of the symlinks of the driver directory in order, up to and
    including the first whose write fails: after a failed write no further
    link is unbound, and the failure is printed once. *)
Theorem release_kernel_driver_stops_at_failure (entries : list driver_entry) :
  snd (release_kernel_driver (Some (Ok entries))) = Ok tt /\
  written is_unbind (fst (release_kernel_driver (Some (Ok entries)))) =
  unbound entries /\
  (forall before d after e,
     entries = before ++ d :: after ->
     is_link d = true -> unbind_io d = Raise e ->
     Forall (fun b => is_link b = true -> unbind_io b = Ok tt) before ->
     unbound entries = unbound before ++ [link_name d] /\
     filter (fun ev => match ev with
                       | Print (L_unbind_failed _) => true
                       | _ => false
                       end)
            (fst (release_kernel_driver (Some (Ok entries)))) =
     [Print (L_unbind_failed e)]).
Proof.
  split; [apply release_kernel_driver_returns|].
  assert (forall es,
            written is_unbind (fst (unbind_links es)) = unbound es /\
            filter (fun ev => match ev with
                              | Print (L_unbind_failed _) => true
                              | _ => false
                              end) (fst (unbind_links es)) = []) as Hlinks.
  { induction es as [|d rest [IH1 IH2]]; [now split|].
    cbn [unbind_links unbound].
    destruct (unbind_links rest) as [evr rr]. cbn [fst] in IH1, IH2.
    destruct (is_link d); [|cbn; now split].
    destruct (unbind_io d) as [[]|e]; cbn; [|now split].
    rewrite IH1, IH2. now split. }
  split.
  - cbn. destruct (Hlinks entries) as [H1 _].
    destruct (unbind_links entries) as [ev [[]|e]]; cbn in *; [exact H1|].
    rewrite <- H1. clear. induction ev as [|[l|g c|s] ev IH]; cbn;
      try exact IH; [reflexivity|].
    destruct (is_unbind g); [now rewrite IH|exact IH].
  - intros before d after e -> Hd He Hb.
    assert (unbound (before ++ d :: after) = unbound before ++ [link_name d]
            /\ exists ev, unbind_links (before ++ d :: after) = (ev, Raise e)
                          /\ filter (fun ev => match ev with
                                               | Print (L_unbind_failed _) => true
                                               | _ => false
                                               end) ev = []) as [Hu (ev & Hev & Hf)].
    { induction before as [|b before IH].
      - cbn. rewrite Hd, He. split; [reflexivity|].
        eexists. split; [reflexivity|]. reflexivity.
      - inversion Hb as [|? ? Hb1 Hb2]; subst.
        destruct (IH Hb2) as [IHu (ev & IHev & IHf)].
        cbn [app unbound unbind_links]. rewrite IHev.
        destruct (is_link b) eqn:Hl.
        + rewrite (Hb1 eq_refl). cbn. rewrite IHu. split; [reflexivity|].
          eexists. split; [reflexivity|]. cbn. exact IHf.
        + cbn. split; [exact IHu|]. eexists. split; [reflexivity|exact IHf]. }
    split; [exact Hu|]. cbn. rewrite Hev. cbn.
    rewrite filter_app, Hf. reflexivity.
Qed.

Lemma release_kernel_driver_stops_at_failure_witness :
  unbound sample_entries = ["fan0"; "fan1"]%string /\
  filter (fun ev => match ev with
                    | Print (L_unbind_failed _) => true
                    | _ => false
                    end)
         (fst (release_kernel_driver (Some (Ok sample_entries)))) =
  [Print (L_unbind_failed OSError)].
Proof.
  apply (proj2 (proj2 (release_kernel_driver_stops_at_failure sample_entries))
           (firstn 2 sample_entries) (nth 2 sample_entries
                                          (mkDriverEntry "" false (Ok tt)))
           (skipn 3 sample_entries) OSError).
  - reflexivity.
  - reflexivity.
  - reflexivity.
  - repeat constructor.
Defined.

(** X3: [set_policy_user_space] never raises, whatever the file operations
    do.  Its only possible effect is one write of [user_space] to the policy
    file, made exactly when the file exists, was read, and holds something
    else. *)
Theorem set_policy_user_space_effect (p : policy_obs) :
  snd (set_policy_user_space p) = Ok tt /\
  (fst (set_policy_user_space p) = [] \/
   fst (set_policy_user_space p) = [Write F_policy "user_space"]) /\
  (fst (set_policy_user_space p) = [Write F_policy "user_space"] <->
   pol_exists p = true /\
   exists current, pol_read p = Ok current /\
                   current <> "user_space"%string).
Proof.
  split; [now rewrite set_policy_returns|].
  unfold set_policy_user_space.
  destruct (pol_exists p); cbn.
  2:{ split; [now left|]. split; [discriminate|]. intros [H _].
      discriminate. }
  destruct (pol_read p) as [cur|e]; cbn.
  2:{ split; [now left|]. split; [discriminate|].
      intros [_ (c & H & _)]. discriminate. }
  destruct (String.eqb cur "user_space") eqn:E; cbn.
  - apply String.eqb_eq in E. split; [now left|]. split; [discriminate|].
    intros [_ (c & [= <-] & Hc)]. contradiction.
  - apply String.eqb_neq in E.
    destruct (pol_write p) as [[]|e]; cbn;
      (split; [now right|]; split; [|reflexivity];
       intros _; split; [reflexivity|]; now exists cur).
Qed.

(** X4: for a chip that was found, [init_pwm] is not stopped by a failing
    step: unless the export raises something other than [OSError], it
    returns and has attempted, in this order, the export (only when [pwm0]
    is missing), the disable, the period, the polarity and the enable write,
    whichever of them failed.  An export that raises another exception
    ends [init_pwm] with that exception after the export write alone. *)
Theorem init_pwm_sequence (self : FanController) (chip : string)
  (io : init_io) :
  pwm_chip self = Some chip ->
  (pwm0_exists io = true \/ Startup.benign (export_io io) = true ->
   snd (init_pwm self io) = Ok tt /\
   files_written (fst (init_pwm self io)) =
   (if pwm0_exists io then [] else [F_pwm_export chip])
     ++ [F_pwm_enable chip; F_pwm_period chip; F_pwm_polarity chip;
         F_pwm_enable chip] /\
   written (fun f => match f with F_pwm_enable _ => true | _ => false end)
     (fst (init_pwm self io)) = ["0"; "1"]%string /\
   written (fun f => match f with F_pwm_period _ => true | _ => false end)
     (fst (init_pwm self io)) = [str (period self)]) /\
  (forall e, pwm0_exists io = false -> export_io io = Raise e ->
             e <> OSError ->
             init_pwm self io = ([Write (F_pwm_export chip) "0"], Raise e)).
Proof.
  intros Hchip. unfold init_pwm. rewrite Hchip.
  destruct io as [ex exp dis per pol en]. cbn [pwm0_exists export_io
    disable_io period_io polarity_io enable_io].
  split.
  - intros H.
    destruct ex; [|destruct H as [H|H]; [discriminate|];
                   destruct exp as [[]|[]]; try discriminate H];
      destruct dis as [[]|?], per as [[]|?], pol as [[]|?], en as [[]|?];
      repeat split; reflexivity.
  - intros e -> -> He. destruct e; [contradiction| | |]; reflexivity.
Qed.

Lemma init_pwm_sequence_witness :
  snd (init_pwm pwm_controller sample_init_io) = Ok tt /\
  files_written (fst (init_pwm pwm_controller sample_init_io)) =
  (if pwm0_exists sample_init_io then []
   else [F_pwm_export "/sys/class/pwm/pwmchip0"])
    ++ [F_pwm_enable "/sys/class/pwm/pwmchip0";
        F_pwm_period "/sys/class/pwm/pwmchip0";
        F_pwm_polarity "/sys/class/pwm/pwmchip0";
        F_pwm_enable "/sys/class/pwm/pwmchip0"] /\
  written (fun f => match f with F_pwm_enable _ => true | _ => false end)
    (fst (init_pwm pwm_controller sample_init_io)) = ["0"; "1"]%string /\
  written (fun f => match f with F_pwm_period _ => true | _ => false end)
    (fst (init_pwm pwm_controller sample_init_io)) =
  [str (period pwm_controller)].
Proof.
  apply (proj1 (init_pwm_sequence pwm_controller "/sys/class/pwm/pwmchip0"
                  sample_init_io eq_refl)).
  right. reflexivity.
Defined.

(** ** Thermal bands on sensor readings, duty cycles over levels *)

Lemma all_from_spec (n : nat) (lo : Z) (f : Z -> bool) :
  all_from n lo f = true ->
  forall z, lo <= z < lo + Z.of_nat n -> f z = true.
Proof.
  revert lo. induction n as [|n IH]; intros lo H z Hz; [lia|].
  cbn [all_from] in H. apply andb_prop in H. destruct H as [H0 H1].
  destruct (Z.eq_dec z lo) as [->|Hne]; [exact H0|].
  apply (IH (lo + 1) H1). lia.
Qed.

Lemma milli_ok_range : all_from (Z.to_nat 250000) (-50000) milli_ok = true.
Proof. vm_compute. reflexivity. Qed.

Lemma duty_linear_range : all_from (Z.to_nat 2001) (-1000) duty_linear = true.
Proof. vm_compute. reflexivity. Qed.

(** X5: on every sensor reading between -50000 and 199999 millidegrees,
    [read_temp] returns the reading divided by 1000 without printing, and
    the level the policy gives it is 1 up to 40000, 2 up to 50000, 3 up to
    60000 and 4 above: the division by 1000.0 moves no reading across a
    threshold. *)
Theorem millidegree_bands (z : Z) :
  -50000 <= z < 200000 ->
  (exists zf, float_of_int z = Ok zf /\
              read_temp (Ok z) = ([], Ok (PrimFloat.div zf 1000))) /\
  get_target_speed (temp_read (Ok z)) = milli_level z /\
  (z <= 40000 -> get_target_speed (temp_read (Ok z)) = 1) /\
  (40000 < z <= 50000 -> get_target_speed (temp_read (Ok z)) = 2) /\
  (50000 < z <= 60000 -> get_target_speed (temp_read (Ok z)) = 3) /\
  (60000 < z -> get_target_speed (temp_read (Ok z)) = 4).
Proof.
  intros Hz.
  pose proof (all_from_spec _ _ _ milli_ok_range z ltac:(lia)) as H.
  unfold milli_ok in H. unfold temp_read.
  split.
  { unfold read_temp in *. cbn in *.
    destruct (float_of_int z) as [zf|e]; [|discriminate].
    exists zf. split; reflexivity. }
  destruct (read_temp (Ok z)) as [[|ev evs] [t|e]]; try discriminate.
  apply Z.eqb_eq in H. cbn [fst snd]. rewrite H. unfold milli_level.
  split; [reflexivity|].
  repeat split; intros Hb;
    repeat match goal with
           | |- context [?a <=? ?b] =>
               destruct (Z.leb_spec a b); try lia
           end; reflexivity.
Qed.

Lemma millidegree_bands_witness :
  (exists zf, float_of_int 40001 = Ok zf /\
              read_temp (Ok 40001) = ([], Ok (PrimFloat.div zf 1000))) /\
  get_target_speed (temp_read (Ok 40001)) = milli_level 40001 /\
  (40001 <= 40000 -> get_target_speed (temp_read (Ok 40001)) = 1) /\
  (40000 < 40001 <= 50000 -> get_target_speed (temp_read (Ok 40001)) = 2) /\
  (50000 < 40001 <= 60000 -> get_target_speed (temp_read (Ok 40001)) = 3) /\
  (60000 < 40001 -> get_target_speed (temp_read (Ok 40001)) = 4).
Proof. apply (millidegree_bands 40001). lia. Defined.

(** X6: with the period 40000 of the script and a PWM chip, [set_speed]
    writes the duty cycle 10000 times the level for every level from -1000
    to 1000, and returns whether the write failed or not: the level is
    neither checked nor clamped, so a level above 4 writes a duty cycle
    above the period and a negative level a negative one. *)
Theorem set_speed_not_clamped (c : FanController) (chip : string) (l : Z)
  (io : result unit) :
  period c = 40000 -> pwm_chip c = Some chip -> -1000 <= l <= 1000 ->
  set_speed c l io =
  (Write (F_duty_cycle chip) (str (10000 * l))
     :: write_failure L_duty_error io, Ok tt) /\
  (4 < l -> period c < 10000 * l) /\ (l < 0 -> 10000 * l < 0).
Proof.
  intros Hp Hc Hl.
  pose proof (all_from_spec _ _ _ duty_linear_range l ltac:(lia)) as H.
  unfold duty_linear in H. unfold set_speed. rewrite Hc, Hp.
  destruct (duty_cycle_of 40000 l) as [d|e]; [|discriminate].
  apply Z.eqb_eq in H. subst d.
  split; [destruct io as [[]|e]; reflexivity|]. lia.
Qed.

Lemma set_speed_not_clamped_witness :
  set_speed pwm_controller 5 (Raise OSError) =
  (Write (F_duty_cycle "/sys/class/pwm/pwmchip0") (str (10000 * 5))
     :: write_failure L_duty_error (Raise OSError), Ok tt) /\
  (4 < 5 -> period pwm_controller < 10000 * 5) /\ (5 < 0 -> 10000 * 5 < 0).
Proof.
  apply (set_speed_not_clamped pwm_controller "/sys/class/pwm/pwmchip0" 5
           (Raise OSError)).
  - reflexivity.
  - reflexivity.
  - lia.
Defined.

(** ** Self-test and steady loop: edge and error behaviour *)

Section LoopEdges.

Variable R : Type.
Variable get_rpm_of : R -> R * result Z.
Variable controller : FanController.

Lemma sample_dwell_silent (n : nat) (level : Z) :
  sample_dwell get_rpm_of n level None = (repeat (Sleep 2%float) n, Ok None).
Proof.
  induction n as [|n IH]; [reflexivity|].
  cbn [sample_dwell]. unfold sleep, ret. cbn [bindM]. rewrite IH.
  reflexivity.
Qed.

Lemma self_test_levels_silent (levels : list Z) (ios : Z -> result unit) :
  period controller = 40000 ->
  Forall (fun l => 0 <= l <= 4) levels ->
  self_test_levels get_rpm_of controller levels ios None =
  (flat_map (fun l => Print (L_selftest_level l)
                        :: actuation_write controller l
                        :: failure_line controller (ios l)
                        ++ repeat (Sleep 2%float) 5) levels,
   Ok None).
Proof.
  intros shipped Hl. induction levels as [|l rest IH]; [reflexivity|].
  inversion Hl as [|? ? H1 H2]; subst.
  cbn [self_test_levels flat_map].
  rewrite (set_speed_shipped controller l (ios l) shipped H1).
  rewrite sample_dwell_silent. unfold print. cbn [bindM].
  rewrite (IH H2). cbn. now rewrite <- !app_assoc.
Qed.

Lemma tick_raises (env : tick_env) (st : loop_state R) (rd : R) (e : exn) :
  get_rpm_of (rpm_reader_of st) = (rd, Raise e) ->
  steady_tick get_rpm_of controller env st =
  (fst (set_policy_user_space (te_policy env))
     ++ fst (read_temp (te_temp env)), Raise e).
Proof.
  intros H. unfold steady_tick.
  rewrite set_policy_returns, read_temp_returns, H. cbn.
  now rewrite app_nil_r.
Qed.

End LoopEdges.

(** X7: without a reader ([rpm_reader] is [None]) the self-test never
    calls [get_rpm] and never raises: it sets the levels 0 to 4 in order,
    sleeps five times two seconds after each, prints no RPM line, and
    returns. *)
Theorem self_test_without_reader (R : Type) (get_rpm_of : R -> R * result Z)
  (controller : FanController) (ios : Z -> result unit) :
  period controller = 40000 ->
  run_self_test get_rpm_of controller None ios =
  (Print L_selftest_start
     :: flat_map (fun l => Print (L_selftest_level l)
                             :: actuation_write controller l
                             :: failure_line controller (ios l)
                             ++ repeat (Sleep 2%float) 5) [0; 1; 2; 3; 4]
     ++ [Print L_selftest_done], Ok None) /\
  actuations (fst (run_self_test get_rpm_of controller None ios)) =
  map (actuation_write controller) [0; 1; 2; 3; 4] /\
  slept (fst (run_self_test get_rpm_of controller None ios)) = 50%float.
Proof.
  intros shipped.
  assert (run_self_test get_rpm_of controller None ios =
          (Print L_selftest_start
             :: flat_map (fun l => Print (L_selftest_level l)
                                     :: actuation_write controller l
                                     :: failure_line controller (ios l)
                                     ++ repeat (Sleep 2%float) 5)
                  [0; 1; 2; 3; 4]
             ++ [Print L_selftest_done], Ok None)) as Hrun.
  { unfold run_self_test.
    rewrite (self_test_levels_silent R get_rpm_of controller (range 5) ios
               shipped) by (repeat constructor; cbn; lia).
    reflexivity. }
  split; [exact Hrun|]. rewrite Hrun. cbn [fst flat_map].
  unfold actuation_write, failure_line.
  destruct (pwm_chip controller);
    destruct (ios 0) as [[]|?], (ios 1) as [[]|?], (ios 2) as [[]|?],
      (ios 3) as [[]|?], (ios 4) as [[]|?]; split; reflexivity.
Qed.

Lemma self_test_without_reader_witness :
  run_self_test (clocked_get_rpm sample_arrivals) fallback_controller None
    (fun _ => Raise OSError) =
  (Print L_selftest_start
     :: flat_map (fun l => Print (L_selftest_level l)
                             :: actuation_write fallback_controller l
                             :: failure_line fallback_controller
                                  (Raise OSError)
                             ++ repeat (Sleep 2%float) 5) [0; 1; 2; 3; 4]
     ++ [Print L_selftest_done], Ok None) /\
  actuations (fst (run_self_test (clocked_get_rpm sample_arrivals)
                     fallback_controller None (fun _ => Raise OSError))) =
  map (actuation_write fallback_controller) [0; 1; 2; 3; 4] /\
  slept (fst (run_self_test (clocked_get_rpm sample_arrivals)
                fallback_controller None (fun _ => Raise OSError)))
  = 50%float.
Proof.
  apply (self_test_without_reader _ (clocked_get_rpm sample_arrivals)
           fallback_controller (fun _ => Raise OSError)).
  reflexivity.
Defined.

(** X8: [main] does not guard [get_rpm()]: when the call raises in a tick,
    the tick raises the same exception before the gate, so it prints no
    status line, writes no level and does not sleep, and the loop ends
    there, the later ticks never running. *)
Theorem get_rpm_failure_halts_loop (R : Type)
  (get_rpm_of : R -> R * result Z) (controller : FanController)
  (env : tick_env) (rest : list tick_env) (st : loop_state R) (rd : R)
  (e : exn) :
  get_rpm_of (rpm_reader_of st) = (rd, Raise e) ->
  snd (steady_tick get_rpm_of controller env st) = Raise e /\
  actuations (fst (steady_tick get_rpm_of controller env st)) = [] /\
  statuses (fst (steady_tick get_rpm_of controller env st)) = [] /\
  slept (fst (steady_tick get_rpm_of controller env st)) = 0%float /\
  steady_loop get_rpm_of controller (env :: rest) st =
  steady_tick get_rpm_of controller env st.
Proof.
  intros H. rewrite (tick_raises R get_rpm_of controller env st rd e H).
  cbn [fst snd]. split; [reflexivity|].
  rewrite actuations_app, statuses_app. unfold actuations, statuses.
  rewrite (filter_none is_actuation _
             (fun x Hx => proj1 (set_policy_quiet _ x Hx))),
    (filter_none is_actuation _ (fun x Hx => proj1 (read_temp_quiet _ x Hx))),
    (filter_none is_status _ (fun x Hx => proj2 (set_policy_quiet _ x Hx))),
    (filter_none is_status _ (fun x Hx => proj2 (read_temp_quiet _ x Hx))).
  split; [reflexivity|]. split; [reflexivity|]. split.
  - unfold set_policy_user_space, read_temp.
    destruct (pol_exists (te_policy env));
      [destruct (pol_read (te_policy env)) as [cur|?];
       [cbn; destruct (String.eqb cur "user_space");
        [|destruct (pol_write (te_policy env)) as [[]|?]]|]|];
      (destruct (te_temp env) as [z|?];
       [cbn; destruct (float_of_int z)|]); reflexivity.
  - cbn [steady_loop].
    rewrite (tick_raises R get_rpm_of controller env st rd e H).
    reflexivity.
Qed.

Lemma get_rpm_failure_halts_loop_witness :
  snd (steady_tick stuck_reader pwm_controller (env_at 45000)
         (loop_entry tt)) = Raise OverflowError /\
  actuations (fst (steady_tick stuck_reader pwm_controller (env_at 45000)
                     (loop_entry tt))) = [] /\
  statuses (fst (steady_tick stuck_reader pwm_controller (env_at 45000)
                   (loop_entry tt))) = [] /\
  slept (fst (steady_tick stuck_reader pwm_controller (env_at 45000)
                (loop_entry tt))) = 0%float /\
  steady_loop stuck_reader pwm_controller [env_at 45000; env_at 70000]
    (loop_entry tt) =
  steady_tick stuck_reader pwm_controller (env_at 45000) (loop_entry tt).
Proof.
  apply (get_rpm_failure_halts_loop unit stuck_reader pwm_controller
           (env_at 45000) [env_at 70000] (loop_entry tt) tt OverflowError).
  reflexivity.
Defined.

Lemma read_temp_no_failure_line (raw : result Z) :
  filter is_write_failure (fst (read_temp raw)) = [].
Proof.
  unfold read_temp. destruct raw as [z|e]; [|reflexivity].
  cbn. destruct (float_of_int z); reflexivity.
Qed.

Lemma set_policy_no_failure_line (p : policy_obs) :
  filter is_write_failure (fst (set_policy_user_space p)) = [].
Proof.
  unfold set_policy_user_space.
  destruct (pol_exists p); [|reflexivity].
  destruct (pol_read p) as [cur|e]; [|reflexivity].
  cbn. destruct (String.eqb cur "user_space"); [reflexivity|].
  destruct (pol_write p) as [[]|e]; reflexivity.
Qed.

Lemma last_nonempty {A : Type} (l : list A) (b d d' : A) :
  last (b :: l) d = last (b :: l) d'.
Proof.
  revert b. induction l as [|c l IH]; intros b; [reflexivity|].
  change (last (c :: l) d = last (c :: l) d'). apply IH.
Qed.

Lemma last_cons_default {A : Type} (l : list A) (a d : A) :
  last (a :: l) d = last l a.
Proof.
  destruct l as [|b l]; [reflexivity|].
  change (last (b :: l) d = last (b :: l) a). apply last_nonempty.
Qed.

Section LoopRuns.

Variable R : Type.
Variable get_rpm_of : R -> R * result Z.
Variable controller : FanController.
Hypothesis shipped : period controller = 40000.

Lemma tick_failure_lines (env : tick_env) (st : loop_state R) (rd : R)
  (rpm : Z) :
  get_rpm_of (rpm_reader_of st) = (rd, Ok rpm) ->
  filter is_write_failure (fst (steady_tick get_rpm_of controller env st)) =
  if target_of env =? current_speed st then []
  else failure_line controller (te_write env).
Proof.
  intros Hget.
  rewrite (steady_tick_spec R get_rpm_of controller shipped env st rd rpm Hget).
  cbn [fst]. rewrite !filter_app, set_policy_no_failure_line,
    read_temp_no_failure_line.
  unfold gated_events. fold (target_of env).
  destruct (target_of env =? current_speed st); cbn [negb orb app].
  - destruct (Z.abs _ >? 100); reflexivity.
  - cbn [filter is_write_failure].
    assert (is_write_failure (actuation_write controller (target_of env))
            = false) as ->
      by (unfold actuation_write; destruct (pwm_chip controller);
          reflexivity).
    unfold failure_line.
    destruct (pwm_chip controller), (te_write env) as [[]|e]; reflexivity.
Qed.

Lemma loop_writes (envs : list tick_env) (st : loop_state R) :
  calls_ok get_rpm_of (List.length envs) (rpm_reader_of st) = true ->
  exists st',
    snd (steady_loop get_rpm_of controller envs st) = Ok st' /\
    current_speed st' = last (map target_of envs) (current_speed st) /\
    actuations (fst (steady_loop get_rpm_of controller envs st)) =
    map (actuation_write controller)
        (changes (current_speed st) (map target_of envs)).
Proof.
  revert st. induction envs as [|env rest IH]; intros st Hok.
  - exists st. now repeat split.
  - cbn [List.length calls_ok] in Hok.
    destruct (get_rpm_of (rpm_reader_of st)) as [rd [rpm|e]] eqn:Hget;
      [|discriminate].
    cbn [is_ok andb] in Hok.
    destruct (tick_next R get_rpm_of controller shipped env st rd rpm Hget)
      as (st1 & Hst1 & Hrd & Hcs & _).
    pose proof (tick_actuations R get_rpm_of controller shipped env st rd rpm
                  Hget) as Hact.
    rewrite <- Hrd in Hok. destruct (IH st1 Hok) as (st' & Hs & Hl & Ha).
    exists st'.
    rewrite (steady_loop_cons R get_rpm_of controller env rest st st1 Hst1).
    cbn [fst snd map changes]. split; [exact Hs|]. split.
    + rewrite Hl, Hcs. symmetry. apply last_cons_default.
    + rewrite actuations_app, Hact, Ha, Hcs.
      destruct (target_of env =? current_speed st) eqn:E; [|reflexivity].
      apply Z.eqb_eq in E. now rewrite E.
Qed.

End LoopRuns.

(** X9: over any run of the steady loop whose [get_rpm()] calls return,
    the levels written are the target levels of the ticks with the
    repetitions of the level before them left out, starting from the
    applied level; the loop state ends at the target of the last tick. *)
Theorem writes_follow_level_changes (R : Type)
  (get_rpm_of : R -> R * result Z) (controller : FanController)
  (envs : list tick_env) (st : loop_state R) :
  period controller = 40000 ->
  calls_ok get_rpm_of (List.length envs) (rpm_reader_of st) = true ->
  exists st',
    snd (steady_loop get_rpm_of controller envs st) = Ok st' /\
    current_speed st' = last (map target_of envs) (current_speed st) /\
    actuations (fst (steady_loop get_rpm_of controller envs st)) =
    map (actuation_write controller)
        (changes (current_speed st) (map target_of envs)).
Proof. intros shipped. now apply loop_writes. Qed.

Lemma writes_follow_level_changes_witness :
  exists st',
    snd (steady_loop (clocked_get_rpm sample_arrivals) fallback_controller
           [env_at 45000; env_at 46000; env_at 61000; env_at 45000;
            env_failed; env_failed]
           (loop_entry sample_reader)) = Ok st' /\
    current_speed st' =
    last (map target_of [env_at 45000; env_at 46000; env_at 61000;
                         env_at 45000; env_failed; env_failed])
         (current_speed (loop_entry sample_reader)) /\
    actuations (fst (steady_loop (clocked_get_rpm sample_arrivals)
                       fallback_controller
                       [env_at 45000; env_at 46000; env_at 61000;
                        env_at 45000; env_failed; env_failed]
                       (loop_entry sample_reader))) =
    map (actuation_write fallback_controller)
        (changes (current_speed (loop_entry sample_reader))
           (map target_of [env_at 45000; env_at 46000; env_at 61000;
                           env_at 45000; env_failed; env_failed])).
Proof.
  apply (writes_follow_level_changes _ (clocked_get_rpm sample_arrivals)
           fallback_controller
           [env_at 45000; env_at 46000; env_at 61000; env_at 45000;
            env_failed; env_failed] (loop_entry sample_reader)).
  - reflexivity.
  - vm_compute. reflexivity.
Defined.

(** X10: a write of [set_speed] that fails is not retried: the loop has
    recorded the level as applied, so over a run whose temperatures all map
    to one level, entered from another level with the write failing, there
    is the one failed write, its error line once, and no further write
    however long the run. *)
Theorem failed_write_not_retried (R : Type)
  (get_rpm_of : R -> R * result Z) (controller : FanController)
  (env : tick_env) (rest : list tick_env) (st : loop_state R) (level : Z)
  (e : exn) :
  period controller = 40000 ->
  Forall (fun env => target_of env = level) (env :: rest) ->
  calls_ok get_rpm_of (S (List.length rest)) (rpm_reader_of st) = true ->
  current_speed st <> level ->
  te_write env = Raise e ->
  is_ok (snd (steady_loop get_rpm_of controller (env :: rest) st)) = true /\
  actuations (fst (steady_loop get_rpm_of controller (env :: rest) st)) =
  [actuation_write controller level] /\
  filter is_write_failure
    (fst (steady_tick get_rpm_of controller env st)) =
  failure_line controller (Raise e) /\
  failure_line controller (Raise e) <> [] /\
  forall st1,
    snd (steady_tick get_rpm_of controller env st) = Ok st1 ->
    current_speed st1 = level /\
    actuations (fst (steady_loop get_rpm_of controller rest st1)) = [].
Proof.
  intros shipped Hband Hok Hne Hw.
  inversion Hband as [|? ? Henv Hrest]; subst.
  cbn [calls_ok] in Hok.
  destruct (get_rpm_of (rpm_reader_of st)) as [rd [rpm|x]] eqn:Hget;
    [|discriminate].
  cbn [is_ok andb] in Hok.
  destruct (tick_next R get_rpm_of controller shipped env st rd rpm Hget)
    as (st1 & Hst1 & Hrd & Hcs & _).
  pose proof (tick_actuations R get_rpm_of controller shipped env st rd rpm
                Hget) as Hact.
  pose proof (tick_failure_lines R get_rpm_of controller shipped env st rd rpm
                Hget) as Hfail.
  assert ((target_of env =? current_speed st) = false) as Hneq
    by (apply Z.eqb_neq; congruence).
  rewrite Hneq in Hact, Hfail. rewrite Hw in Hfail.
  destruct (steady_loop_in_band R get_rpm_of controller shipped rest st1)
    as [Hrun Hquiet].
  { now rewrite Hcs. }
  { now rewrite Hrd. }
  rewrite (steady_loop_cons R get_rpm_of controller env rest st st1 Hst1).
  cbn [fst snd]. rewrite actuations_app, Hact, Hquiet.
  split; [exact Hrun|]. split; [reflexivity|]. split; [exact Hfail|].
  split.
  - unfold failure_line. destruct (pwm_chip controller); discriminate.
  - intros st2 H2. rewrite Hst1 in H2. injection H2 as <-. now split.
Qed.

Lemma failed_write_not_retried_witness :
  is_ok (snd (steady_loop (clocked_get_rpm sample_arrivals) pwm_controller
                [env_write_fails 55000; env_at 56000; env_at 57000]
                (loop_entry sample_reader))) = true /\
  actuations (fst (steady_loop (clocked_get_rpm sample_arrivals)
                     pwm_controller
                     [env_write_fails 55000; env_at 56000; env_at 57000]
                     (loop_entry sample_reader))) =
  [actuation_write pwm_controller 3] /\
  filter is_write_failure
    (fst (steady_tick (clocked_get_rpm sample_arrivals) pwm_controller
            (env_write_fails 55000) (loop_entry sample_reader))) =
  failure_line pwm_controller (Raise OSError) /\
  failure_line pwm_controller (Raise OSError) <> [] /\
  forall st1,
    snd (steady_tick (clocked_get_rpm sample_arrivals) pwm_controller
           (env_write_fails 55000) (loop_entry sample_reader)) = Ok st1 ->
    current_speed st1 = 3 /\
    actuations (fst (steady_loop (clocked_get_rpm sample_arrivals)
                       pwm_controller [env_at 56000; env_at 57000] st1)) = [].
Proof.
  apply (failed_write_not_retried _ (clocked_get_rpm sample_arrivals)
           pwm_controller (env_write_fails 55000) [env_at 56000; env_at 57000]
           (loop_entry sample_reader) 3 OSError).
  - reflexivity.
  - repeat constructor.
  - vm_compute. reflexivity.
  - discriminate.
  - reflexivity.
Defined.

(** ** The two threads: exclusion, progress, a monitor that has ended *)

Module ThreadMore.

Import Threads ThreadObs ThreadFacts.

Lemma run_inv (sched : list action) (t0 : float) :
  inv (snd (run sched (start t0))).
Proof.
  destruct (inv_start t0) as [Hi Hd].
  destruct (run sched (start t0)) as [os c] eqn:H.
  now destruct (run_account _ _ _ _ Hi Hd H).
Qed.

Lemma nonneg_step (a : action) (c c' : config) (o : obs) :
  inv c -> nonneg c -> step a c = Some (o, c') ->
  nonneg c' /\ match o with Captured n _ => 0 <= n | _ => True end.
Proof.
  intros [Hl [Hm Hr]] [Hc Hk] H.
  unfold inv, lock_ok, locals_ok, nonneg in *.
  step_cases c a H; cbn in *;
    try destruct rp; try destruct mp; cbn in *;
    try discriminate; try contradiction;
    repeat split; try assumption; try lia.
Qed.

Lemma nonneg_run (sched : list action) (c c' : config) (os : list obs) :
  inv c -> dt_ok c -> nonneg c -> run sched c = (os, c') ->
  nonneg c' /\ Forall (fun n => 0 <= n) (captures os).
Proof.
  revert c os. induction sched as [|a rest IH]; intros c os Hi Hd Hn H.
  - injection H as <- <-. split; [assumption|constructor].
  - cbn [run] in H. destruct (step a c) as [[o c1]|] eqn:Hs.
    + destruct (run rest c1) as [os1 c2] eqn:Hr. injection H as <- <-.
      destruct (nonneg_step _ _ _ _ Hi Hn Hs) as [Hn1 Ho].
      destruct (IH c1 os1 (inv_step _ _ _ _ Hi Hs)
                  (dt_ok_step _ _ _ _ Hi Hd Hs) Hn1 Hr) as [Hn2 Hall].
      split; [exact Hn2|].
      destruct o; cbn [captures]; try exact Hall. now constructor.
    + exact (IH c os Hi Hd Hn H).
Qed.

(** X11: in every state the two threads can reach, at most one of them is
    inside its [with self.lock] block, the lock is held by exactly the
    thread that is inside, the pulse counter is not negative, and no
    [get_rpm] call captured a negative count. *)
Theorem lock_excludes (t0 : float) (sched : list action) :
  let os := fst (run sched (start t0)) in
  let c := snd (run sched (start t0)) in
  mon_in_lock (mon c) && rdr_in_lock (rdr c) = false /\
  (lock c = Some T_monitor <-> mon_in_lock (mon c) = true) /\
  (lock c = Some T_reader <-> rdr_in_lock (rdr c) = true) /\
  (lock c = None <->
   mon_in_lock (mon c) = false /\ rdr_in_lock (rdr c) = false) /\
  0 <= pulse_count (obj c) /\
  Forall (fun n => 0 <= n) (captures os).
Proof.
  intros os c.
  assert (inv c) as [Hl _] by apply run_inv.
  assert (nonneg c /\ Forall (fun n => 0 <= n) (captures os)) as [[Hc _] Hall].
  { destruct (inv_start t0) as [Hi Hd]. subst os c.
    destruct (run sched (start t0)) as [os c] eqn:H.
    apply (nonneg_run sched (start t0) c os Hi Hd); [|exact H].
    split; cbn; [lia|exact I]. }
  unfold lock_ok in Hl.
  repeat split; try assumption;
    destruct (mon c), (rdr c); cbn in *;
    try contradiction; try reflexivity; try congruence;
    try (intros [? ?]; congruence); try (intros; congruence).
Qed.




Lemma silent_step (a : action) (c c' : config) (o : obs) :
  silent c -> step a c = Some (o, c') ->
  silent c' /\ mon c' = mon c /\
  match o with
  | Counted => False
  | Captured n _ => n = 0
  | Returned r => exists dt, r = rpm_value 0 dt
  | Tau => True
  end.
Proof.
  intros (He & Hc & Hk) H. unfold silent in *.
  step_cases c a H; cbn in *; try discriminate;
    try destruct rp; cbn in *; subst;
    repeat split; try assumption; try reflexivity; eauto.
Qed.

Lemma silent_run (sched : list action) (c : config) :
  silent c ->
  counted (fst (run sched c)) = 0 /\
  Forall (fun n => n = 0) (captures (fst (run sched c))) /\
  Forall (fun r => exists dt, r = rpm_value 0 dt)
         (returns (fst (run sched c))) /\
  mon (snd (run sched c)) = mon c.
Proof.
  revert c. induction sched as [|a rest IH]; intros c Hs.
  - cbn. repeat split; constructor.
  - cbn [run]. destruct (step a c) as [[o c1]|] eqn:Hstep; [|now apply IH].
    destruct (silent_step _ _ _ _ Hs Hstep) as (Hs1 & Hm & Ho).
    destruct (IH c1 Hs1) as (H1 & H2 & H3 & H4).
    destruct (run rest c1) as [os c2]. cbn [fst snd] in *.
    rewrite H4, Hm.
    destruct o; cbn [counted captures returns]; try contradiction;
      repeat split; try assumption; try (now constructor).
Qed.

(** X13: when the setup of the monitor thread raises (the value file cannot
    be opened or registered), the thread ends and never counts: in every
    continuation no pulse is counted, every [get_rpm] call captures 0 and
    returns what [get_rpm] computes from a count of 0, and the process goes
    on. *)
Theorem monitor_setup_failure (t0 : float) (e : exn) (sched : list action) :
  let r := run (A_monitor (Raise e) :: sched) (start t0) in
  counted (fst r) = 0 /\
  Forall (fun n => n = 0) (captures (fst r)) /\
  Forall (fun x => exists dt, x = rpm_value 0 dt) (returns (fst r)) /\
  mon (snd r) = M_stopped e.
Proof.
  cbv zeta. cbn [run step step_monitor start mon].
  set (c1 := with_mon _ _ _ _).
  assert (silent c1) as Hs by (repeat split).
  destruct (silent_run sched c1 Hs) as (H1 & H2 & H3 & H4).
  destruct (run sched c1) as [os c2]. cbn [fst snd] in *.
  repeat split; assumption.
Qed.

End ThreadMore.

(** ** Startup *)

Lemma init_pwm_returns (self : FanController) (io : init_io) :
  pwm0_exists io = true \/ Startup.benign (export_io io) = true ->
  snd (init_pwm self io) = Ok tt.
Proof.
  intros H. unfold init_pwm. destruct (pwm_chip self) as [chip|];
    [|reflexivity].
  destruct io as [ex exp dis per pol en]. cbn in *.
  destruct ex; [|destruct H as [H|H]; [discriminate|];
                 destruct exp as [[]|[]]; try discriminate H];
    destruct dis as [[]|?], per as [[]|?], pol as [[]|?], en as [[]|?];
    reflexivity.
Qed.

Lemma quiet_actuations (evs : list event) :
  Forall not_actuation evs -> actuations evs = [].
Proof.
  intros H. apply filter_none. now apply Forall_forall.
Qed.

Lemma init_pwm_quiet (self : FanController) (io : init_io) :
  Forall not_actuation (fst (init_pwm self io)).
Proof.
  unfold init_pwm. destruct (pwm_chip self) as [chip|]; [|constructor].
  destruct io as [ex exp dis per pol en]. cbn.
  destruct ex; [|destruct exp as [[]|[]]];
    destruct dis as [[]|?], per as [[]|?], pol as [[]|?], en as [[]|?];
    cbn; repeat constructor.
Qed.

Lemma unbind_links_quiet (entries : list driver_entry) :
  Forall not_actuation (fst (unbind_links entries)).
Proof.
  induction entries as [|d rest IH]; [constructor|].
  cbn [unbind_links]. apply bindM_events; [|intros _ _; exact IH].
  destruct (is_link d); repeat constructor.
Qed.

Lemma release_kernel_driver_quiet
  (driver : option (result (list driver_entry))) :
  Forall not_actuation (fst (release_kernel_driver driver)).
Proof.
  destruct driver as [[entries|e]|]; cbn.
  - pose proof (unbind_links_quiet entries) as H.
    destruct (unbind_links entries) as [ev [[]|e]]; cbn in *; [exact H|].
    apply Forall_app. split; [exact H|]. repeat constructor.
  - repeat constructor.
  - constructor.
Qed.

Lemma find_pwm_chip_quiet (chips : list chip_obs) :
  Forall not_actuation (fst (find_pwm_chip chips)).
Proof.
  induction chips as [|c rest IH]; cbn; [repeat constructor|].
  destruct (of_node c) as [[real_path|]|e]; try exact IH.
  destruct (contains PWM_NODE_ADDR real_path); [|exact IH].
  repeat constructor.
Qed.

(** The constructor returns unless the export raises something other than
    [OSError]; it writes no level. *)
Lemma FanController_init_returns
  (driver : option (result (list driver_entry))) (chips : list chip_obs)
  (io : init_io) :
  pwm0_exists io = true \/ Startup.benign (export_io io) = true ->
  exists found,
    snd (find_pwm_chip chips) = Ok found /\
    FanController_init driver chips io =
    (fst (FanController_init driver chips io),
     Ok {| pwm_path := found; period := 40000 |}) /\
    actuations (fst (FanController_init driver chips io)) = [].
Proof.
  intros H. unfold FanController_init.
  destruct (release_kernel_driver_returns driver) as [Hrel _].
  pose proof (release_kernel_driver_quiet driver) as Hq1.
  destruct (release_kernel_driver driver) as [ev1 r1]. cbn in Hrel, Hq1.
  subst r1.
  destruct (find_pwm_chip_returns chips) as [Hfind _].
  pose proof (find_pwm_chip_quiet chips) as Hq2.
  destruct (find_pwm_chip chips) as [ev2 [found|e]]; [|discriminate].
  cbn in Hq2. exists found. split; [reflexivity|]. cbn [bindM].
  pose proof (init_pwm_returns {| pwm_path := found; period := 40000 |} io H)
    as Hinit.
  pose proof (init_pwm_quiet {| pwm_path := found; period := 40000 |} io)
    as Hq3.
  destruct (init_pwm {| pwm_path := found; period := 40000 |} io)
    as [ev3 r3]. cbn in Hinit, Hq3. subst r3. cbn.
  split; [reflexivity|].
  apply quiet_actuations. rewrite app_nil_r.
  apply Forall_app. split; [exact Hq1|]. apply Forall_app. now split.
Qed.

Module StartupFacts.

Import Startup.

Lemma core_events_app (a b : list main_event) :
  core_events (a ++ b) = core_events a ++ core_events b.
Proof.
  induction a as [|x a IH]; [reflexivity|].
  destruct x; cbn [app core_events]; now rewrite IH.
Qed.

Lemma core_events_core (evs : list event) :
  core_events (map Core evs) = evs.
Proof. induction evs as [|e evs IH]; cbn; now rewrite ?IH. Qed.

Lemma gpio_writes_app (a b : list main_event) :
  gpio_writes (a ++ b) = gpio_writes a ++ gpio_writes b.
Proof.
  induction a as [|x a IH]; [reflexivity|].
  destruct x; cbn [app gpio_writes]; now rewrite IH.
Qed.

(** [setup_gpio] returns unless the export raises something other than
    [OSError]; it has no event of the controller but a sleep. *)
Lemma setup_gpio_returns (io : gpio_io) :
  gpio_exists io = true \/ benign (gpio_export_io io) = true ->
  snd (setup_gpio io) = Ok tt /\
  actuations (core_events (fst (setup_gpio io))) = [] /\
  statuses (core_events (fst (setup_gpio io))) = [].
Proof.
  intros H. unfold setup_gpio. destruct io as [ex exp dir edge]. cbn in *.
  destruct ex; [|destruct H as [H|H]; [discriminate|];
                 destruct exp as [[]|[]]; try discriminate H];
    destruct dir as [[]|?], edge as [[]|?]; repeat split; reflexivity.
Qed.

(** X14: [setup_gpio] is not stopped by an [OSError] of the export (the pin
    is already exported): it goes on silently, without the half-second
    sleep.  It then writes the direction, and the edge only when the
    direction write succeeded; a failure of either is printed once and not
    raised.  It writes the export only when the GPIO directory is missing,
    and only another exception of the export makes it raise. *)
Theorem setup_gpio_sequence (io : gpio_io) :
  (gpio_exists io = true \/ benign (gpio_export_io io) = true ->
   snd (setup_gpio io) = Ok tt /\
   gpio_writes (fst (setup_gpio io)) =
   (if gpio_exists io then [] else [(G_export, "139"%string)])
     ++ (G_direction, "in"%string)
     :: match direction_io io with
        | Ok _ => [(G_edge, "falling"%string)]
        | Raise _ => []
        end /\
   filter (fun ev => match ev with Main_print _ => true | _ => false end)
     (fst (setup_gpio io)) =
   match direction_io io, edge_io io with
   | Raise e, _ => [Main_print (L_gpio_error e)]
   | Ok _, Raise e => [Main_print (L_gpio_error e)]
   | Ok _, Ok _ => []
   end /\
   slept (core_events (fst (setup_gpio io))) =
   if gpio_exists io then 0%float
   else match gpio_export_io io with
        | Ok _ => 0.5%float
        | Raise _ => 0%float
        end) /\
  (forall e, gpio_exists io = false -> gpio_export_io io = Raise e ->
             e <> OSError ->
             setup_gpio io = ([Gpio_write G_export "139"], Raise e)).
Proof.
  unfold setup_gpio. destruct io as [ex exp dir edge]. cbn.
  split.
  - intros H.
    destruct ex; [|destruct H as [H|H]; [discriminate|];
                   destruct exp as [[]|[]]; try discriminate H];
      destruct dir as [[]|?], edge as [[]|?]; repeat split; reflexivity.
  - intros e -> -> He. destruct e; [contradiction| | |]; reflexivity.
Qed.

Lemma setup_gpio_sequence_witness :
  snd (setup_gpio (m_gpio sample_main_env)) = Ok tt /\
  gpio_writes (fst (setup_gpio (m_gpio sample_main_env))) =
  (if gpio_exists (m_gpio sample_main_env) then []
   else [(G_export, "139"%string)])
    ++ (G_direction, "in"%string)
    :: match direction_io (m_gpio sample_main_env) with
       | Ok _ => [(G_edge, "falling"%string)]
       | Raise _ => []
       end /\
  filter (fun ev => match ev with Main_print _ => true | _ => false end)
    (fst (setup_gpio (m_gpio sample_main_env))) =
  match direction_io (m_gpio sample_main_env),
        edge_io (m_gpio sample_main_env) with
  | Raise e, _ => [Main_print (L_gpio_error e)]
  | Ok _, Raise e => [Main_print (L_gpio_error e)]
  | Ok _, Ok _ => []
  end /\
  slept (core_events (fst (setup_gpio (m_gpio sample_main_env)))) =
  if gpio_exists (m_gpio sample_main_env) then 0%float
  else match gpio_export_io (m_gpio sample_main_env) with
       | Ok _ => 0.5%float
       | Raise _ => 0%float
       end.
Proof.
  apply (proj1 (setup_gpio_sequence (m_gpio sample_main_env))).
  right. reflexivity.
Defined.

End StartupFacts.

Section SelfTestResult.

Variable R : Type.
Variable get_rpm_of : R -> R * result Z.
Variable controller : FanController.
Hypothesis shipped : period controller = 40000.

Lemma draw_split_rest (n m : nat) (r : R) :
  calls_ok get_rpm_of n r = true ->
  snd (draw get_rpm_of (n + m) r) =
  snd (draw get_rpm_of m (snd (draw get_rpm_of n r))).
Proof.
  revert r. induction n as [|n IH]; intros r H; [reflexivity|].
  cbn [Nat.add calls_ok draw] in *.
  destruct (get_rpm_of r) as [r' [v|e]]; [|discriminate].
  cbn [is_ok andb] in H. specialize (IH r' H).
  destruct (draw get_rpm_of (n + m) r') as [vs1 q1].
  destruct (draw get_rpm_of n r') as [vs2 q2].
  cbn [fst snd] in *. exact IH.
Qed.

Lemma self_test_levels_result (ios : Z -> result unit) (levels : list Z)
  (r : R) :
  Forall (fun l => 0 <= l <= 4) levels ->
  calls_ok get_rpm_of (5 * List.length levels) r = true ->
  snd (self_test_levels get_rpm_of controller levels ios (Some r)) =
  Ok (Some (snd (draw get_rpm_of (5 * List.length levels) r))) /\
  actuations (fst (self_test_levels get_rpm_of controller levels ios
                     (Some r))) =
  map (actuation_write controller) levels.
Proof.
  revert r. induction levels as [|level rest IH]; intros r Hl Hok;
    [now split|].
  inversion Hl as [|? ? Hlevel Hrest]; subst.
  replace (5 * List.length (level :: rest))%nat
    with (5 + 5 * List.length rest)%nat in * by (cbn [List.length]; lia).
  destruct (calls_ok_split R get_rpm_of _ _ _ Hok) as [Hok1 Hok2].
  destruct (sample_dwell_spec R get_rpm_of 5 level r Hok1) as [Hdwell _].
  destruct (IH _ Hrest Hok2) as [IH1 IH2].
  rewrite (draw_split_rest _ _ _ Hok1).
  cbn [self_test_levels].
  rewrite (set_speed_shipped controller level (ios level) shipped Hlevel).
  rewrite Hdwell. unfold print. cbn [bindM].
  destruct (self_test_levels get_rpm_of controller rest ios
              (Some (snd (draw get_rpm_of 5 r)))) as [evs res].
  cbn [fst snd map] in *. split; [exact IH1|].
  change (actuation_write controller level
            :: failure_line controller (ios level))
    with ([actuation_write controller level]
            ++ failure_line controller (ios level)).
  rewrite !actuations_app, IH2, dwell_trace_quiet.
  rewrite (proj1 (failure_line_quiet _ _)).
  unfold actuations. cbn [filter is_actuation app].
  now rewrite (proj1 (is_actuation_write _ _)).
Qed.

Lemma run_self_test_result (ios : Z -> result unit) (r : R) :
  calls_ok get_rpm_of 25 r = true ->
  snd (run_self_test get_rpm_of controller (Some r) ios) =
  Ok (Some (snd (draw get_rpm_of 25 r))) /\
  actuations (fst (run_self_test get_rpm_of controller (Some r) ios)) =
  map (actuation_write controller) [0; 1; 2; 3; 4].
Proof.
  intros Hok.
  destruct (self_test_levels_result ios (range 5) r) as [H1 H2].
  { repeat constructor; cbn; lia. }
  { exact Hok. }
  unfold run_self_test.
  destruct (self_test_levels get_rpm_of controller (range 5) ios (Some r))
    as [evs res]. cbn [fst snd] in *. subst res. cbn.
  split; [reflexivity|].
  change (Print L_selftest_start :: ?l) with ([Print L_selftest_start] ++ l).
  rewrite !actuations_app, H2. reflexivity.
Qed.

End SelfTestResult.

Module MainFacts.

Import Startup StartupFacts.

(** The startup of [main] up to the end of the self-test. *)
Lemma main_startup (test_flag : bool) (env : main_env)
  (ticks : list tick_env) :
  pwm0_exists (m_init_io env) = true
  \/ benign (export_io (m_init_io env)) = true ->
  gpio_exists (m_gpio env) = true
  \/ benign (gpio_export_io (m_gpio env)) = true ->
  calls_ok (clocked_get_rpm (m_arrivals env)) 25
    (RPMReader_init (m_now env), 0%nat) = true ->
  exists found pre,
    snd (find_pwm_chip (m_chips env)) = Ok found /\
    actuations (core_events pre) =
    map (actuation_write {| pwm_path := found; period := 40000 |})
        [0; 1; 2; 3; 4] /\
    main test_flag env ticks =
    let controller := {| pwm_path := found; period := 40000 |} in
    let rd := snd (draw (clocked_get_rpm (m_arrivals env)) 25
                     (RPMReader_init (m_now env), 0%nat)) in
    bindMM (pre, Ok tt)
      (fun _ =>
         if test_flag then
           main_print L_test_complete >>>
           temp <== core (read_temp (m_test_temp env)) ;;
           main_print (L_restoring temp (get_target_speed temp)) >>>
           core (set_speed controller (get_target_speed temp)
                   (m_test_write env)) >>>
           retMM None
         else
           st <== core (steady_loop (clocked_get_rpm (m_arrivals env))
                          controller ticks (loop_entry rd)) ;;
           retMM (Some st)).
Proof.
  intros Hinit Hgpio Hok.
  destruct (FanController_init_returns (m_driver env) (m_chips env)
              (m_init_io env) Hinit) as (found & Hfound & Hctl & Hq).
  destruct (setup_gpio_returns (m_gpio env) Hgpio) as (Hg & Hgq & _).
  destruct (run_self_test_result _ (clocked_get_rpm (m_arrivals env))
              {| pwm_path := found; period := 40000 |} eq_refl
              (m_selftest_ios env) (RPMReader_init (m_now env), 0%nat) Hok)
    as [Hres Hact].
  exists found.
  exists ([Main_print L_starting]
            ++ map Core (fst (set_policy_user_space (m_policy env)))
            ++ map Core (fst (FanController_init (m_driver env) (m_chips env)
                                (m_init_io env)))
            ++ fst (setup_gpio (m_gpio env))
            ++ map Core (fst (run_self_test
                                (clocked_get_rpm (m_arrivals env))
                                {| pwm_path := found; period := 40000 |}
                                (Some (RPMReader_init (m_now env), 0%nat))
                                (m_selftest_ios env)))).
  split; [exact Hfound|]. split.
  - rewrite !core_events_app, !core_events_core, !actuations_app.
    rewrite Hq, Hgq, Hact. cbn [core_events].
    unfold actuations at 1 2.
    rewrite (filter_none is_actuation _
               (fun x Hx => proj1 (set_policy_quiet _ x Hx))).
    reflexivity.
  - unfold main, RPMReader_new.
    rewrite set_policy_returns, Hctl.
    destruct (setup_gpio (m_gpio env)) as [evg rg]. cbn [snd] in Hg.
    subst rg. unfold core at 1 2. cbn [fst snd bindMM main_print retMM].
    destruct (run_self_test (clocked_get_rpm (m_arrivals env))
                {| pwm_path := found; period := 40000 |}
                (Some (RPMReader_init (m_now env), 0%nat))
                (m_selftest_ios env)) as [evt rt].
    cbn [snd] in Hres. subst rt. unfold core at 1.
    cbn [fst snd bindMM]. cbv zeta.
    match goal with
    | |- context [if test_flag then ?a else ?b] =>
        destruct (if test_flag then a else b) as [evk rk]
    end.
    rewrite ?app_nil_r, <- ?app_assoc. reflexivity.
Qed.

(** X15: started with [--test], [main] runs the startup and the self-test
    and then restores the thermal target: its level writes are 0, 1, 2, 3, 4
    and then the level the policy gives the temperature read at that moment,
    which is between 1 and 4, so the fan is never left at a self-test level
    by the test itself; then [main] returns, and the steady loop is not
    entered, whatever it would have met. *)
Theorem main_test_mode (env : main_env) (ticks : list tick_env) :
  pwm0_exists (m_init_io env) = true
  \/ benign (export_io (m_init_io env)) = true ->
  gpio_exists (m_gpio env) = true
  \/ benign (gpio_export_io (m_gpio env)) = true ->
  calls_ok (clocked_get_rpm (m_arrivals env)) 25
    (RPMReader_init (m_now env), 0%nat) = true ->
  exists controller,
    snd (find_pwm_chip (m_chips env)) = Ok (pwm_path controller) /\
    period controller = 40000 /\
    snd (main true env ticks) = Ok None /\
    actuations (core_events (fst (main true env ticks))) =
    map (actuation_write controller)
        [0; 1; 2; 3; 4; get_target_speed (temp_read (m_test_temp env))] /\
    1 <= get_target_speed (temp_read (m_test_temp env)) <= 4 /\
    main true env ticks = main true env [].
Proof.
  intros Hinit Hgpio Hok.
  destruct (main_startup true env ticks Hinit Hgpio Hok)
    as (found & pre & Hfound & Hact & Hmain).
  assert (main true env ticks = main true env []) as Hsame by reflexivity.
  assert (1 <= get_target_speed (temp_read (m_test_temp env)) <= 4) as Ht.
  { destruct (get_target_speed_range (temp_read (m_test_temp env)))
      as [H|[H|[H|H]]]; rewrite H; lia. }
  exists {| pwm_path := found; period := 40000 |}.
  split; [exact Hfound|]. split; [reflexivity|].
  assert (main true env ticks =
          (pre ++ [Main_print L_test_complete]
             ++ map Core (fst (read_temp (m_test_temp env)))
             ++ [Main_print (L_restoring (temp_read (m_test_temp env))
                               (get_target_speed
                                  (temp_read (m_test_temp env))))]
             ++ map Core
                  (actuation_write {| pwm_path := found; period := 40000 |}
                     (get_target_speed (temp_read (m_test_temp env)))
                   :: failure_line {| pwm_path := found; period := 40000 |}
                        (m_test_write env)),
           Ok None)) as Hrun.
  { rewrite Hmain. cbv zeta. rewrite read_temp_returns.
    unfold core at 1. cbn [fst snd bindMM main_print].
    rewrite (set_speed_shipped {| pwm_path := found; period := 40000 |}
               _ (m_test_write env) eq_refl) by lia.
    cbn. now rewrite app_nil_r. }
  rewrite Hrun. cbn [fst snd]. split; [reflexivity|]. split; [|split].
  - rewrite !core_events_app, !core_events_core, !actuations_app, Hact.
    cbn [core_events]. unfold actuations at 2.
    rewrite (filter_none is_actuation _
               (fun x Hx => proj1 (read_temp_quiet _ x Hx))).
    change (actuation_write ?c ?l :: failure_line ?c ?io)
      with ([actuation_write c l] ++ failure_line c io).
    rewrite actuations_app, (proj1 (failure_line_quiet _ _)).
    unfold actuations. cbn [filter app map].
    rewrite (proj1 (is_actuation_write _ _)). reflexivity.
  - exact Ht.
  - rewrite <- Hrun. exact Hsame.
Qed.

Lemma main_test_mode_witness :
  exists controller,
    snd (find_pwm_chip (m_chips sample_main_env))
    = Ok (pwm_path controller) /\
    period controller = 40000 /\
    snd (main true sample_main_env [env_at 45000]) = Ok None /\
    actuations (core_events (fst (main true sample_main_env
                                    [env_at 45000]))) =
    map (actuation_write controller)
        [0; 1; 2; 3; 4;
         get_target_speed (temp_read (m_test_temp sample_main_env))] /\
    1 <= get_target_speed (temp_read (m_test_temp sample_main_env)) <= 4 /\
    main true sample_main_env [env_at 45000] = main true sample_main_env [].
Proof.
  apply (main_test_mode sample_main_env [env_at 45000]).
  - right. reflexivity.
  - right. reflexivity.
  - vm_compute. reflexivity.
Defined.

(** X16: started without [--test], [main] enters the steady loop after the
    self-test with the applied level at -1: over the startup and any number
    of ticks whose [get_rpm()] calls return, its level writes are 0, 1, 2, 3,
    4 and then the target levels of the ticks with the repetitions left out,
    so the first tick always writes its target and takes the fan off the
    last self-test level. *)
Theorem main_steady_mode (env : main_env) (ticks : list tick_env) :
  pwm0_exists (m_init_io env) = true
  \/ benign (export_io (m_init_io env)) = true ->
  gpio_exists (m_gpio env) = true
  \/ benign (gpio_export_io (m_gpio env)) = true ->
  calls_ok (clocked_get_rpm (m_arrivals env)) (25 + List.length ticks)
    (RPMReader_init (m_now env), 0%nat) = true ->
  exists controller st,
    snd (find_pwm_chip (m_chips env)) = Ok (pwm_path controller) /\
    period controller = 40000 /\
    snd (main false env ticks) = Ok (Some st) /\
    current_speed st = last (map target_of ticks) (-1) /\
    actuations (core_events (fst (main false env ticks))) =
    map (actuation_write controller)
        ([0; 1; 2; 3; 4] ++ changes (-1) (map target_of ticks)).
Proof.
  intros Hinit Hgpio Hok.
  destruct (calls_ok_split _ (clocked_get_rpm (m_arrivals env)) _ _ _ Hok)
    as [Hok1 Hok2].
  destruct (main_startup false env ticks Hinit Hgpio Hok1)
    as (found & pre & Hfound & Hact & Hmain).
  destruct (loop_writes _ (clocked_get_rpm (m_arrivals env))
              {| pwm_path := found; period := 40000 |} eq_refl ticks
              (loop_entry (snd (draw (clocked_get_rpm (m_arrivals env)) 25
                                  (RPMReader_init (m_now env), 0%nat))))
              Hok2) as (st & Hst & Hcs & Hw).
  exists {| pwm_path := found; period := 40000 |}, st.
  split; [exact Hfound|]. split; [reflexivity|].
  rewrite Hmain. cbv zeta.
  destruct (steady_loop (clocked_get_rpm (m_arrivals env))
              {| pwm_path := found; period := 40000 |} ticks
              (loop_entry (snd (draw (clocked_get_rpm (m_arrivals env)) 25
                                  (RPMReader_init (m_now env), 0%nat)))))
    as [evl rl]. cbn [fst snd] in Hst, Hw. subst rl.
  cbn. split; [reflexivity|]. split; [exact Hcs|].
  rewrite app_nil_r, core_events_app, core_events_core, actuations_app,
    Hact, Hw. reflexivity.
Qed.

Lemma main_steady_mode_witness :
  exists controller st,
    snd (find_pwm_chip (m_chips sample_main_env))
    = Ok (pwm_path controller) /\
    period controller = 40000 /\
    snd (main false sample_main_env [env_at 45000; env_at 46000; env_failed])
    = Ok (Some st) /\
    current_speed st =
    last (map target_of [env_at 45000; env_at 46000; env_failed]) (-1) /\
    actuations (core_events
                  (fst (main false sample_main_env
                          [env_at 45000; env_at 46000; env_failed]))) =
    map (actuation_write controller)
        ([0; 1; 2; 3; 4]
           ++ changes (-1)
                (map target_of [env_at 45000; env_at 46000; env_failed])).
Proof.
  apply (main_steady_mode sample_main_env
           [env_at 45000; env_at 46000; env_failed]).
  - right. reflexivity.
  - right. reflexivity.
  - vm_compute. reflexivity.
Defined.

End MainFacts.

(** ** Windows of [get_rpm], duty cycles within the period *)

Lemma count_pulses (n : nat) (r : RPMReader) :
  pulse_count (Nat.iter n count_pulse r) = pulse_count r + Z.of_nat n /\
  last_time (Nat.iter n count_pulse r) = last_time r /\
  running (Nat.iter n count_pulse r) = running r /\
  rpm_attr (Nat.iter n count_pulse r) = rpm_attr r.
Proof.
  induction n as [|n (IH1 & IH2 & IH3 & IH4)].
  - simpl. split; [lia|]. now repeat split.
  - rewrite Nat.iter_succ.
    generalize dependent (Nat.iter n count_pulse r). intros q IH1 IH2 IH3 IH4.
    unfold count_pulse. cbn [pulse_count last_time running rpm_attr].
    split; [lia|]. now repeat split.
Qed.

(** X17: a call of [get_rpm] reports only the pulses counted since the
    call before it, over the time between the two clock readings, whatever
    the counter held earlier.  In particular a call made with no time
    elapsed returns 0 and still resets the counter: the pulses it found are
    reported by no call. *)
Theorem get_rpm_windows (r : RPMReader) (t1 t2 : float) (n : nat) :
  let r1 := fst (get_rpm t1 r) in
  get_rpm t2 (Nat.iter n count_pulse r1) =
  ({| running := running r; rpm_attr := rpm_attr r; pulse_count := 0;
      last_time := t2 |},
   rpm_value (Z.of_nat n) (PrimFloat.sub t2 t1)) /\
  (PrimFloat.eqb (PrimFloat.sub t1 (last_time r)) 0 = true ->
   snd (get_rpm t1 r) = Ok 0 /\ pulse_count r1 = 0).
Proof.
  cbv zeta. split.
  - destruct (count_pulses n (fst (get_rpm t1 r))) as (H1 & H2 & H3 & H4).
    unfold get_rpm at 1. rewrite H1, H2, H3, H4. reflexivity.
  - intros H. unfold get_rpm, rpm_value. cbn [fst snd pulse_count].
    now rewrite H.
Qed.

Lemma get_rpm_windows_witness :
  snd (get_rpm 10 reader_sample) = Ok 0 /\
  pulse_count (fst (get_rpm 10 reader_sample)) = 0.
Proof.
  apply (proj2 (get_rpm_windows reader_sample 10 13 4)). reflexivity.
Defined.

Lemma written_app (f : file -> bool) (a b : list event) :
  written f (a ++ b) = written f a ++ written f b.
Proof.
  induction a as [|x a IH]; [reflexivity|].
  destruct x as [l|g c|s]; cbn [app written]; try exact IH.
  destruct (f g); cbn; now rewrite IH.
Qed.

Lemma release_kernel_driver_no_period
  (driver : option (result (list driver_entry))) :
  written is_period (fst (release_kernel_driver driver)) = [].
Proof.
  assert (forall es, written is_period (fst (unbind_links es)) = []) as H.
  { induction es as [|d rest IH]; [reflexivity|].
    cbn [unbind_links]. destruct (unbind_links rest) as [evr rr].
    cbn [fst] in IH.
    destruct (is_link d); [destruct (unbind_io d) as [[]|e]|]; cbn;
      try exact IH; reflexivity. }
  destruct driver as [[entries|e]|]; cbn; try reflexivity.
  specialize (H entries).
  destruct (unbind_links entries) as [ev [[]|e]]; cbn in *; [exact H|].
  now rewrite written_app, H.
Qed.

Lemma find_pwm_chip_no_period (chips : list chip_obs) :
  written is_period (fst (find_pwm_chip chips)) = [].
Proof.
  induction chips as [|c rest IH]; cbn; [reflexivity|].
  destruct (of_node c) as [[real_path|]|e]; try exact IH.
  destruct (contains PWM_NODE_ADDR real_path); [reflexivity|exact IH].
Qed.

Lemma init_pwm_period (self : FanController) (chip : string) (io : init_io) :
  pwm_chip self = Some chip ->
  pwm0_exists io = true \/ Startup.benign (export_io io) = true ->
  written is_period (fst (init_pwm self io)) = [str (period self)].
Proof.
  intros Hc H. unfold init_pwm. rewrite Hc.
  destruct io as [ex exp dis per pol en]. cbn in *.
  destruct ex; [|destruct H as [H|H]; [discriminate|];
                 destruct exp as [[]|[]]; try discriminate H];
    destruct dis as [[]|?], per as [[]|?], pol as [[]|?], en as [[]|?];
    reflexivity.
Qed.

(** X18: the controller that [__init__] builds on a PWM chip writes the
    period 40000 to the hardware once, and every duty cycle that [set_speed]
    then writes for a level from 0 to 4 lies between 0 and that period: level
    0 is 0 and level 4 is the full period. *)
Theorem duty_within_period
  (driver : option (result (list driver_entry))) (chips : list chip_obs)
  (io : init_io) (evs : list event) (c : FanController) (chip : string) :
  FanController_init driver chips io = (evs, Ok c) ->
  pwm_chip c = Some chip ->
  pwm0_exists io = true \/ Startup.benign (export_io io) = true ->
  written is_period evs = ["40000"%string] /\
  duty_cycle_of (period c) 0 = Ok 0 /\
  duty_cycle_of (period c) 4 = Ok 40000 /\
  forall level w,
    0 <= level <= 4 ->
    exists d,
      duty_cycle_of (period c) level = Ok d /\ 0 <= d <= 40000 /\
      set_speed c level w =
      (Write (F_duty_cycle chip) (str d) :: write_failure L_duty_error w,
       Ok tt).
Proof.
  intros Hinit Hchip Hio.
  destruct (FanController_init_shipped _ _ _ _ _ Hinit) as [Hp Hfound].
  assert (c = {| pwm_path := pwm_path c; period := 40000 |}) as Hc
    by (destruct c; cbn in *; now subst).
  split.
  - revert Hinit. unfold FanController_init.
    pose proof (release_kernel_driver_no_period driver) as H1.
    destruct (release_kernel_driver_returns driver) as [Hrel _].
    destruct (release_kernel_driver driver) as [ev1 r1]. cbn in Hrel, H1.
    subst r1. cbn [bindM].
    pose proof (find_pwm_chip_no_period chips) as H2.
    destruct (find_pwm_chip chips) as [ev2 [found|e]]; [|discriminate].
    cbn in Hfound, H2. injection Hfound as ->. cbn [bindM].
    rewrite <- Hc.
    pose proof (init_pwm_period c chip io Hchip Hio) as H3.
    destruct (init_pwm c io) as [ev3 [[]|e]]; cbn; [|discriminate].
    intros [= <-]. cbn [fst] in H3.
    rewrite app_nil_r, !written_app, H1, H2, H3, Hp. reflexivity.
  - rewrite Hp. split; [reflexivity|]. split; [reflexivity|].
    intros level w Hl. exists (40000 * level / 4).
    split; [now apply duty_cycle_shipped|].
    split.
    + assert (level = 0 \/ level = 1 \/ level = 2 \/ level = 3 \/ level = 4)
        as D by lia.
      destruct D as [->|[->|[->|[->| ->]]]]; cbn; lia.
    + rewrite (set_speed_shipped c level w Hp Hl).
      unfold actuation_write, failure_line. now rewrite Hchip, Hp.
Qed.

Lemma duty_within_period_witness :
  written is_period
    (fst (FanController_init None (Startup.m_chips sample_main_env)
            sample_init_io)) = ["40000"%string] /\
  duty_cycle_of (period pwm_controller) 0 = Ok 0 /\
  duty_cycle_of (period pwm_controller) 4 = Ok 40000 /\
  forall level w,
    0 <= level <= 4 ->
    exists d,
      duty_cycle_of (period pwm_controller) level = Ok d /\
      0 <= d <= 40000 /\
      set_speed pwm_controller level w =
      (Write (F_duty_cycle "/sys/class/pwm/pwmchip0") (str d)
         :: write_failure L_duty_error w, Ok tt).
Proof.
  apply (duty_within_period None (Startup.m_chips sample_main_env)
           sample_init_io _ pwm_controller "/sys/class/pwm/pwmchip0").
  - reflexivity.
  - reflexivity.
  - right. reflexivity.
Defined.
